(** * A digit classifier notebook pair: data preparation, model assembly,
      inference and checkpointing

    The two notebooks ([02-MNIST-TensorFlow.ipynb] and
    [03-Serving-Tensorflow-Locally.ipynb]) are straight-line scripts over
    numpy arrays, a pandas table and a Keras [Sequential] model.  The
    development below embeds the cells as they are written:

    - [np]: n-dimensional arrays as a shape and a C-ordered buffer, with
      [reshape], indexing and element-wise maps;
    - [pd]: the table read from the CSV file and the two selections the
      notebook takes from it;
    - [csv]: [read_csv] itself, on files whose lines may differ in length,
      and the preparation of the table it returns;
    - [prep]: the data preparation cells, in an error monad;
    - [keras]: the layer stack the notebook assembles, its forward pass and
      the checkpoint it writes;
    - [numpy] and [cell20]: [argmax], [random.randint] and the example cell
      that shows one test row with its prediction.

    The array and layer primitives belong to the libraries the notebooks
    call; they are written after the libraries' documented behaviour and
    the notebooks' own description of each call. *)

From Stdlib Require Import ZArith QArith Reals Lra Lia List Bool String.
From Stdlib Require Import Floats Uint63.
From stdpp Require Import base list strings gmap.

Import ListNotations.
Local Open Scope nat_scope.

(** ** Exceptions *)

(** The notebooks catch nothing: an exception raised by a library call ends
    the cell that made it.  [result] threads that through the cells. *)

Inductive exn : Type :=
| ValueError
| KeyError
| ParserError
| EmptyDataError.

Inductive result (A : Type) : Type :=
| Ok (a : A)
| Raise (e : exn).

Arguments Ok {A} a.
Arguments Raise {A} e.

(** [result] is a monad in stdpp's sense, so the cells are sequenced with
    [x ← cell; rest]. *)
#[export] Instance result_ret : MRet result := fun A a => Ok a.

#[export] Instance result_bind : MBind result := fun A B k r =>
  match r with
  | Ok a => k a
  | Raise e => Raise e
  end.

Definition is_ok {A : Type} (r : result A) : bool :=
  match r with Ok _ => true | Raise _ => false end.

(** ** numpy arrays *)

Module np.

(** An array is its shape and its elements in C (row-major) order. *)
Record ndarray (A : Type) : Type := mk {
  shape : list nat;
  data : list A
}.

Arguments mk {A} shape data.
Arguments shape {A} n.
Arguments data {A} n.

(** Number of elements a shape holds. *)
Definition size_of (sh : list nat) : nat := fold_right Nat.mul 1 sh.

Definition wf {A : Type} (a : ndarray A) : Prop :=
  length (data a) = size_of (shape a).

(** [a.reshape(newshape)]: the buffer is kept as it is and only the shape
    changes; numpy raises [ValueError] when the new shape does not hold
    exactly the elements of the array. *)
Definition reshape {A : Type} (a : ndarray A) (newshape : list nat)
  : result (ndarray A) :=
  if size_of newshape =? length (data a)
  then Ok (mk newshape (data a))
  else Raise ValueError.

(** Position in the buffer of a multi-index, by Horner's rule over the
    shape; [None] when the index has the wrong rank or is out of bounds. *)
Fixpoint ravel_index (sh idx : list nat) : option nat :=
  match sh, idx with
  | [], [] => Some 0
  | d :: sh', i :: idx' =>
      if i <? d
      then match ravel_index sh' idx' with
           | Some off => Some (i * size_of sh' + off)
           | None => None
           end
      else None
  | _, _ => None
  end.

(** [a[i0, i1, ...]] with a full index. *)
Definition item {A : Type} (a : ndarray A) (idx : list nat) : option A :=
  match ravel_index (shape a) idx with
  | Some off => nth_error (data a) off
  | None => None
  end.

(** [a[i]]: the [i]-th sub-array along the first axis. *)
Definition sub {A : Type} (a : ndarray A) (i : nat) : option (ndarray A) :=
  match shape a with
  | d :: sh' =>
      if i <? d
      then Some (mk sh' (firstn (size_of sh') (skipn (i * size_of sh') (data a))))
      else None
  | [] => None
  end.

(** [a.ravel()]: the elements in C order. *)
Definition ravel {A : Type} (a : ndarray A) : list A := data a.

(** Element-wise application, as in [a / 255.0]. *)
Definition map {A B : Type} (f : A -> B) (a : ndarray A) : ndarray B :=
  mk (shape a) (List.map f (data a)).

(** The rank-3 array whose cell [(i, j, k)] is [f i j k], filled in C
    order. *)
Definition tabulate3 {A : Type} (d0 d1 d2 : nat) (f : nat -> nat -> nat -> A)
  : ndarray A :=
  mk [d0; d1; d2]
     (flat_map (fun i => flat_map (fun j => List.map (f i j) (seq 0 d2)) (seq 0 d1))
               (seq 0 d0)).

End np.

(** ** The pandas table *)

Module pd.

(** [pd.read_csv(path, header=None)] gives a rectangular table of
    integers: [columns] cells in each row, column labels [0, 1, ...]. *)
Record DataFrame : Type := mk {
  columns : nat;
  rows : list (list Z)
}.

Definition wf (df : DataFrame) : Prop :=
  Forall (fun r => length r = columns df) (rows df).

(** [df.loc[:, 1:].values]: every row without its first cell, as a
    two-dimensional array. *)
Definition loc_from_1_values (df : DataFrame) : np.ndarray Z :=
  np.mk [length (rows df); columns df - 1] (concat (List.map (skipn 1) (rows df))).

(** [df[0].values]: the first column; [KeyError] when there is none. *)
Definition col_0_values (df : DataFrame) : result (np.ndarray Z) :=
  if 0 <? columns df
  then Ok (np.mk [length (rows df)] (List.map (fun r => hd 0%Z r) (rows df)))
  else Raise KeyError.

(** The pixel sequence of a row: its cells after the label. *)
Definition pixels (r : list Z) : list Z := skipn 1 r.

End pd.

(** ** Data preparation (notebook 02, cells 3 to 7) *)

Module prep.

(** An [int64] cell converted to [float64], as numpy does before a true
    division by a float. *)
Definition to_float (x : Z) : float :=
  if (x <? 0)%Z
  then PrimFloat.opp (PrimFloat.of_uint63 (Uint63.of_Z (- x)))
  else PrimFloat.of_uint63 (Uint63.of_Z x).

(** [x / 255.0] on one element, in [float64]. *)
Definition divide_255 (x : Z) : float :=
  PrimFloat.div (to_float x) 255%float.

(** The same division over exact rationals. *)
Definition divide_255_exact (x : Z) : Q := (inject_Z x / 255)%Q.

(** [features.reshape((features.shape[0], 28, 28, 1))] *)
Definition reshape_features {A : Type} (features : np.ndarray A)
  : result (np.ndarray A) :=
  np.reshape features [hd 0 (np.shape features); 28; 28; 1].

(** [features / 255.0] *)
Definition normalize (features : np.ndarray Z) : np.ndarray float :=
  np.map divide_255 features.

Definition normalize_exact (features : np.ndarray Z) : np.ndarray Q :=
  np.map divide_255_exact features.

(** The four statements applied to one table:
    [features = df.loc[:, 1:].values],
    [features = features.reshape((features.shape[0], 28, 28, 1))],
    [features = features / 255.0] and [labels = df[0].values].
    The division is a parameter so that the float and the exact version
    share the cell sequence. *)
Definition prepare_with {F : Type} (divide : Z -> F) (df : pd.DataFrame)
  : result (np.ndarray F * np.ndarray Z) :=
  let features := pd.loc_from_1_values df in
  features ← reshape_features features;
  let features := np.map divide features in
  labels ← pd.col_0_values df;
  mret (features, labels).

Definition prepare : pd.DataFrame -> result (np.ndarray float * np.ndarray Z) :=
  prepare_with divide_255.

Definition prepare_exact : pd.DataFrame -> result (np.ndarray Q * np.ndarray Z) :=
  prepare_with divide_255_exact.

(** Test performed on every pixel value by [divide_255_checks]: the
    quotient lies in the unit interval and times 255 is the pixel again. *)
Definition divide_255_check (x : Z) : bool :=
  PrimFloat.leb 0%float (divide_255 x)
  && PrimFloat.leb (divide_255 x) 1%float
  && PrimFloat.eqb (PrimFloat.mul (divide_255 x) 255%float) (to_float x).

End prep.

(** ** Reading the files (notebook 02, cell 2) *)

Module csv.

(** A table as [read_csv] returns it: a cell holds an integer or, where the
    line had no field for it, the missing value (NaN). *)
Record DataFrame : Type := mk {
  columns : nat;
  rows : list (list (option Z))
}.

Definition blank (line : list Z) : bool :=
  match line with
  | [] => true
  | _ :: _ => false
  end.

(** A line completed with missing values up to [n] cells. *)
Definition pad (n : nat) (line : list Z) : list (option Z) :=
  List.map Some line ++ repeat None (n - length line).

(** [pd.read_csv(path, header=None)] on a file of integer fields, given as
    the list of fields of each line.  Blank lines are skipped; a file
    without lines raises [EmptyDataError]; the first line fixes the number
    of columns; a later line with more fields raises [ParserError], one
    with fewer is completed with missing values. *)
Definition read_csv (file : list (list Z)) : result DataFrame :=
  match List.filter (fun line => negb (blank line)) file with
  | [] => Raise EmptyDataError
  | first :: rest =>
      if forallb (fun line => length line <=? length first) rest
      then Ok (mk (length first) (List.map (pad (length first)) (first :: rest)))
      else Raise ParserError
  end.

(** [df.loc[:, 1:].values] *)
Definition loc_from_1_values (df : DataFrame) : np.ndarray (option Z) :=
  np.mk [length (rows df); columns df - 1] (concat (List.map (skipn 1) (rows df))).

(** [df[0].values] *)
Definition col_0_values (df : DataFrame) : result (np.ndarray (option Z)) :=
  if 0 <? columns df
  then Ok (np.mk [length (rows df)] (List.map (fun r => hd None r) (rows df)))
  else Raise KeyError.

(** [x / 255.0] on one cell: a missing value stays missing. *)
Definition divide_255 (c : option Z) : float :=
  match c with
  | Some x => prep.divide_255 x
  | None => PrimFloat.nan
  end.

(** Cells 3 to 6 (and cell 7 for the test table) on a table just read. *)
Definition prepare (df : DataFrame)
  : result (np.ndarray float * np.ndarray (option Z)) :=
  let features := loc_from_1_values df in
  features ← prep.reshape_features features;
  let features := np.map divide_255 features in
  labels ← col_0_values df;
  mret (features, labels).


End csv.

(** ** The Keras model (notebook 02, cells 8 to 20) *)

(** The arithmetic the layers need.  The trained model runs on reals below;
    the instance on [Z] lets the layers be run on small grids. *)
Class Scalar (T : Type) : Type := {
  s_zero : T;
  s_add : T -> T -> T;
  s_mul : T -> T -> T;
  s_max : T -> T -> T
}.

#[export] Instance Scalar_R : Scalar R :=
  {| s_zero := 0%R; s_add := Rplus; s_mul := Rmult; s_max := Rmax |}.

#[export] Instance Scalar_Z : Scalar Z :=
  {| s_zero := 0%Z; s_add := Z.add; s_mul := Z.mul; s_max := Z.max |}.

Module keras.

Inductive Activation : Type :=
| linear
| relu
| softmax.

(** The layers the notebook uses, with the arguments it passes. *)
Inductive Layer : Type :=
| Conv2D (filters : nat) (kernel_size : nat * nat) (input_shape : option (list nat))
| MaxPooling2D (pool_size : nat * nat) (strides : nat)
| Flatten
| Dense (units : nat) (activation : Activation)
| Dropout (rate : Q).

(** Kernel and bias of one layer, addressed by index. *)
Record LayerWeights (T : Type) : Type := mkW {
  kernel : list nat -> T;
  bias : nat -> T
}.

Arguments mkW {T} kernel bias.
Arguments kernel {T} l idx.
Arguments bias {T} l j.

Section Layers.
Context {T : Type} `{Scalar T}.

Definition sum_of (l : list T) : T := fold_right s_add s_zero l.

(** Largest element of a pooling window (never empty for a pool size
    of at least 1). *)
Definition max_of (l : list T) : T :=
  match l with
  | [] => s_zero
  | v :: l' => fold_left s_max l' v
  end.

(** Element of a rank-3 array, [s_zero] outside it. *)
Definition at3 (x : np.ndarray T) (i j c : nat) : T :=
  default s_zero (np.item x [i; j; c]).

Definition at1 (x : np.ndarray T) (i : nat) : T :=
  default s_zero (np.item x [i]).

(** Window of the convolution at output position [(i, j)], multiplied
    by the kernel of filter [f]. *)
Definition conv_terms (kh kw : nat) (w : LayerWeights T) (x : np.ndarray T)
    (channels i j f : nat) : list T :=
  flat_map (fun di =>
    flat_map (fun dj =>
      List.map (fun ch => s_mul (at3 x (i + di) (j + dj) ch) (kernel w [di; dj; ch; f]))
               (seq 0 channels))
      (seq 0 kw))
    (seq 0 kh).

(** [Conv2D(filters, kernel_size)] with the defaults the notebook
    leaves in place: stride 1, no padding, bias, no activation. *)
Definition conv2d (filters kh kw : nat) (w : LayerWeights T) (x : np.ndarray T)
  : result (np.ndarray T) :=
  match np.shape x with
  | [h; wd; channels] =>
      if (1 <=? kh) && (kh <=? h) && (1 <=? kw) && (kw <=? wd)
      then
        let oh := h - kh + 1 in
        let ow := wd - kw + 1 in
        Ok (np.tabulate3 oh ow filters (fun i j f =>
              s_add (sum_of (conv_terms kh kw w x channels i j f)) (bias w f)))
      else Raise ValueError
  | _ => Raise ValueError
  end.

(** The cells of channel [c] under the pooling window at output
    position [(i, j)]. *)
Definition pool_window (ph pw stride : nat) (x : np.ndarray T) (i j c : nat) : list T :=
  flat_map (fun a =>
    List.map (fun b => at3 x (i * stride + a) (j * stride + b) c) (seq 0 pw))
    (seq 0 ph).

(** [MaxPooling2D(pool_size, strides)] without padding: windows that
    do not fit entirely in the grid are dropped. *)
Definition max_pool2d (ph pw stride : nat) (x : np.ndarray T) : result (np.ndarray T) :=
  match np.shape x with
  | [h; wd; channels] =>
      if (1 <=? ph) && (ph <=? h) && (1 <=? pw) && (pw <=? wd) && (1 <=? stride)
      then
        let oh := (h - ph) / stride + 1 in
        let ow := (wd - pw) / stride + 1 in
        Ok (np.tabulate3 oh ow channels (fun i j c =>
              max_of (pool_window ph pw stride x i j c)))
      else Raise ValueError
  | _ => Raise ValueError
  end.

(** [Flatten()]: one axis holding the elements in C order. *)
Definition flatten (x : np.ndarray T) : np.ndarray T :=
  np.mk [np.size_of (np.shape x)] (np.data x).

(** The weighted sums of a [Dense] layer, before its activation. *)
Definition dense_affine (units : nat) (w : LayerWeights T) (x : np.ndarray T)
  : result (list T) :=
  match np.shape x with
  | [n] =>
      Ok (List.map (fun j =>
            s_add (sum_of (List.map (fun i => s_mul (at1 x i) (kernel w [i; j])) (seq 0 n)))
                  (bias w j))
            (seq 0 units))
  | _ => Raise ValueError
  end.

End Layers.

Definition rsum (l : list R) : R := sum_of l.

(** [tf.nn.softmax] on one score vector. *)
Definition softmax_vec (v : list R) : list R :=
  let e := List.map exp v in
  List.map (fun t => (t / rsum e)%R) e.

Definition activate (a : Activation) (v : list R) : list R :=
  match a with
  | linear => v
  | relu => List.map (Rmax 0) v
  | softmax => softmax_vec v
  end.

Definition dense (units : nat) (a : Activation) (w : LayerWeights R) (x : np.ndarray R)
  : result (np.ndarray R) :=
  v ← dense_affine units w x;
  mret (np.mk [units] (activate a v)).

(** [Dropout(rate)].  In a training pass the units the random draw
    [dropped] selects are zeroed and the others scaled by
    [1 / (1 - rate)]; outside training the input is returned as it is. *)
Definition dropout (rate : Q) (training : bool) (dropped : nat -> bool)
    (x : np.ndarray R) : np.ndarray R :=
  if training
  then np.mk (np.shape x)
         (imap (fun k v => if dropped k then 0%R else (v / (1 - Q2R rate))%R) (np.data x))
  else x.

(** One layer applied to one sample. *)
Definition call (training : bool) (dropped : nat -> bool) (l : Layer)
    (w : LayerWeights R) (x : np.ndarray R) : result (np.ndarray R) :=
  match l with
  | Conv2D filters (kh, kw) _ => conv2d filters kh kw w x
  | MaxPooling2D (ph, pw) stride => max_pool2d ph pw stride x
  | Flatten => Ok (flatten x)
  | Dense units a => dense units a w x
  | Dropout rate => Ok (dropout rate training dropped x)
  end.

(** A [Sequential] stack: each layer feeds the next.  [k] is the position
    of the first layer of [ls] in the model; weights and random draws are
    addressed by position. *)
Fixpoint forward_from (k : nat) (training : bool) (rng : nat -> nat -> bool)
    (ws : nat -> LayerWeights R) (ls : list Layer) (x : np.ndarray R)
  : result (np.ndarray R) :=
  match ls with
  | [] => Ok x
  | l :: ls' =>
      y ← call training (rng k) l (ws k) x;
      forward_from (S k) training rng ws ls' y
  end.

(** What [compile] attaches to a model, and the number of update steps
    the optimizer has taken since. *)
Record Optimizer : Type := mkOpt {
  opt_name : string;
  opt_loss : string;
  opt_metrics : list string;
  opt_iterations : N
}.

Record Model : Type := mkModel {
  layers : list Layer;
  weights : nat -> LayerWeights R;
  optimizer : option Optimizer
}.

(** [tf.keras.models.Sequential()], with the values its weights will be
    initialised to. *)
Definition Sequential (w : nat -> LayerWeights R) : Model :=
  {| layers := []; weights := w; optimizer := None |}.

(** [model.add(layer)] *)
Definition add (m : Model) (l : Layer) : Model :=
  {| layers := layers m ++ [l]; weights := weights m; optimizer := optimizer m |}.

(** [model.compile(optimizer=..., loss=..., metrics=...)] *)
Definition compile (m : Model) (opt loss : string) (metrics : list string) : Model :=
  {| layers := layers m; weights := weights m;
     optimizer := Some (mkOpt opt loss metrics 0) |}.

(** The input shape the first layer declares, if it does. *)
Definition input_shape_of (m : Model) : option (list nat) :=
  match layers m with
  | Conv2D _ _ sh :: _ => sh
  | _ => None
  end.

(** Stack per-sample outputs along a new first axis. *)
Definition stack (outs : list (np.ndarray R)) : np.ndarray R :=
  np.mk (length outs :: match outs with o :: _ => np.shape o | [] => [] end)
        (concat (List.map np.data outs)).

Definition run_sample (training : bool) (rng : nat -> nat -> bool) (m : Model)
    (x : np.ndarray R) (b : nat) : result (np.ndarray R) :=
  match np.sub x b with
  | Some sample => forward_from 0 training rng (weights m) (layers m) sample
  | None => Raise ValueError
  end.

(** [model.predict(x)] on a batch [x]: the stack is run outside training
    on each sample.  [rng] stands for the random draws available to the
    run. *)
Definition predict (m : Model) (rng : nat -> nat -> bool) (x : np.ndarray R)
  : result (np.ndarray R) :=
  match np.shape x with
  | batch :: sh =>
      if bool_decide (input_shape_of m = None \/ input_shape_of m = Some sh)
      then
        outs ← mapM (run_sample false rng m x) (seq 0 batch);
        mret (stack outs)
      else Raise ValueError
  | [] => Raise ValueError
  end.

(** Shape a layer gives to a sample of shape [sh], as [model.summary()]
    lists it; [None] where the layer rejects the shape. *)
Definition output_shape (l : Layer) (sh : list nat) : option (list nat) :=
  match l, sh with
  | Conv2D filters (kh, kw) _, [h; wd; _] =>
      if (1 <=? kh) && (kh <=? h) && (1 <=? kw) && (kw <=? wd)
      then Some [h - kh + 1; wd - kw + 1; filters]
      else None
  | MaxPooling2D (ph, pw) stride, [h; wd; channels] =>
      if (1 <=? ph) && (ph <=? h) && (1 <=? pw) && (pw <=? wd) && (1 <=? stride)
      then Some [(h - ph) / stride + 1; (wd - pw) / stride + 1; channels]
      else None
  | Flatten, _ => Some [np.size_of sh]
  | Dense units _, [_] => Some [units]
  | Dropout _, _ => Some sh
  | _, _ => None
  end.

(** Number of trainable values of a layer fed samples of shape [sh]. *)
Definition count_params (l : Layer) (sh : list nat) : N :=
  match l, sh with
  | Conv2D filters (kh, kw) _, [_; _; channels] =>
      N.of_nat kh * N.of_nat kw * N.of_nat channels * N.of_nat filters + N.of_nat filters
  | Dense units _, [n] => N.of_nat n * N.of_nat units + N.of_nat units
  | _, _ => 0
  end.

(** The rows of [model.summary()]: output shape and parameter count of
    each layer. *)
Fixpoint summary_from (sh : list nat) (ls : list Layer) : list (list nat * N) :=
  match ls with
  | [] => []
  | l :: ls' =>
      match output_shape l sh with
      | Some sh' => (sh', count_params l sh) :: summary_from sh' ls'
      | None => []
      end
  end.

(** Shape of what the stack [ls] returns for a sample of shape [sh]. *)
Fixpoint output_shape_from (sh : list nat) (ls : list Layer) : option (list nat) :=
  match ls with
  | [] => Some sh
  | l :: ls' =>
      match output_shape l sh with
      | Some sh' => output_shape_from sh' ls'
      | None => None
      end
  end.

Definition summary (m : Model) : list (list nat * N) :=
  summary_from (default [] (input_shape_of m)) (layers m).

(** What a single-file checkpoint holds. *)
Record Checkpoint : Type := mkCheckpoint {
  ck_layers : list Layer;
  ck_weights : nat -> LayerWeights R;
  ck_optimizer : option Optimizer
}.

(** What [model.save] did: the files afterwards, and whether the user was
    asked before writing. *)
Record SaveOutcome : Type := mkSaved {
  files : gmap string Checkpoint;
  asked : bool
}.

(** [model.save(filepath, overwrite, include_optimizer)].  With
    [overwrite] off and a file already at [filepath] the user is asked,
    and nothing is written unless the [answer] is yes; the optimizer is
    written when asked for and the model has one. *)
Definition save (m : Model) (filepath : string) (overwrite include_optimizer : bool)
    (answer : bool) (fs : gmap string Checkpoint) : SaveOutcome :=
  let ck := {| ck_layers := layers m;
               ck_weights := weights m;
               ck_optimizer := if include_optimizer then optimizer m else None |} in
  if negb overwrite && bool_decide (is_Some (fs !! filepath))
  then if answer
       then mkSaved (<[filepath := ck]> fs) true
       else mkSaved fs true
  else mkSaved (<[filepath := ck]> fs) false.

End keras.

(** ** Notebook 02, from the model cell on *)

Module notebook02.

Import keras.

(** Cells 8 to 15: the empty model, the six [model.add] calls in the
    order of the cells, and [model.compile]. *)
Definition model (init : nat -> LayerWeights R) : Model :=
  let model := Sequential init in
  let model := add model (Conv2D 32 (3, 3) (Some [28; 28; 1])) in
  let model := add model (MaxPooling2D (2, 2) 2) in
  let model := add model Flatten in
  let model := add model (Dense 64 relu) in
  let model := add model (Dropout (2 # 10)) in
  let model := add model (Dense 10 softmax) in
  compile model "adam" "sparse_categorical_crossentropy" ["accuracy"].

(** Batches needed to go once over [samples] rows, 32 rows to a batch. *)
Definition steps_per_pass (samples : N) : N := ((samples + 31) / 32)%N.

(** [model.fit(features, labels, epochs)]: the passes over the training
    set replace the weights and advance the optimizer by one step per
    batch.  The values the weights arrive at are not computed here;
    [trained] stands for them. *)
Definition fit (trained : nat -> LayerWeights R) (samples epochs : N) (m : Model)
  : Model :=
  {| layers := layers m;
     weights := trained;
     optimizer :=
       match optimizer m with
       | Some o => Some (mkOpt (opt_name o) (opt_loss o) (opt_metrics o)
                           (opt_iterations o + epochs * steps_per_pass samples))
       | None => None
       end |}.

(** Cell 17: [model.fit(train_features, train_labels, epochs=3)]. *)
Definition fit_cell (trained : nat -> LayerWeights R) (samples : N) (m : Model) : Model :=
  fit trained samples 3 m.

(** Cell 19: [model.save('mnist-model.h5', overwrite=True,
    include_optimizer=True)]. *)
Definition save_cell (m : Model) (answer : bool) (fs : gmap string Checkpoint)
  : SaveOutcome :=
  save m "mnist-model.h5" true true answer fs.

(** Cell 20: [model.predict(features.reshape((1,28,28,1)))[0]]. *)
Definition predict_cell (m : Model) (rng : nat -> nat -> bool) (features : np.ndarray R)
  : result (np.ndarray R) :=
  x ← np.reshape features [1; 28; 28; 1];
  y ← predict m rng x;
  match np.sub y 0 with
  | Some scores => Ok scores
  | None => Raise ValueError
  end.

(** The layer kinds, in the vocabulary of the design notes. *)
Inductive Role : Type :=
| feature_extractor
| downsampler
| flattener
| hidden_classifier
| regularizer
| output_classifier.

Definition role (l : Layer) : Role :=
  match l with
  | Conv2D _ _ _ => feature_extractor
  | MaxPooling2D _ _ => downsampler
  | Flatten => flattener
  | Dense _ softmax => output_classifier
  | Dense _ _ => hidden_classifier
  | Dropout _ => regularizer
  end.

End notebook02.

(** ** More of numpy: [argmax] and [random.randint] *)

Module numpy.

(** Scan of [argmax]: [best] at position [best_i] is the largest value seen
    before position [i]; a later value replaces it only when strictly
    larger, so that the first of several maxima is kept. *)
Fixpoint argmax_from (best_i : nat) (best : R) (i : nat) (l : list R) : nat :=
  match l with
  | [] => best_i
  | v :: l' =>
      if Rlt_dec best v
      then argmax_from i v (S i) l'
      else argmax_from best_i best (S i) l'
  end.

(** [a.argmax()]: position, in the flattened array, of the first largest
    element; [ValueError] on an array without elements. *)
Definition argmax (a : np.ndarray R) : result nat :=
  match np.data a with
  | [] => Raise ValueError
  | v :: l => Ok (argmax_from 0 v 1 l)
  end.

(** [np.random.randint(low, high)]: an integer from [low] (inclusive) to
    [high] (exclusive); [ValueError] when the range is empty.  [draw] is
    the raw output of the generator. *)
Definition randint (low high : N) (draw : N) : result N :=
  if (low <? high)%N
  then Ok (low + draw mod (high - low))%N
  else Raise ValueError.

End numpy.

(** ** Per-sample view of a batch *)

Module inference.

(** The scores the model gives sample [b] of the batch [x] outside
    training (none when the run raises). *)
Definition sample_scores (m : keras.Model) (rng : nat -> nat -> bool)
    (x : np.ndarray R) (b : nat) : list R :=
  match keras.run_sample false rng m x b with
  | Ok scores => np.data scores
  | Raise _ => []
  end.

End inference.

(** ** Notebook 02, the example cell (cell 20) *)

Module cell20.

(** How the cell ends: with a value, with an exception of a library call,
    or with the [IndexError] of a subscript outside its array. *)
Inductive outcome (A : Type) : Type :=
| Returned (a : A)
| Raised (e : exn)
| RaisedIndexError.

Arguments Returned {A} a.
Arguments Raised {A} e.
Arguments RaisedIndexError {A}.

#[export] Instance outcome_ret : MRet outcome := fun A a => Returned a.

#[export] Instance outcome_bind : MBind outcome := fun A B k o =>
  match o with
  | Returned a => k a
  | Raised e => Raised e
  | RaisedIndexError => RaisedIndexError
  end.

Definition of_result {A : Type} (r : result A) : outcome A :=
  match r with
  | Ok a => Returned a
  | Raise e => Raised e
  end.

Definition of_subscript {A : Type} (o : option A) : outcome A :=
  match o with
  | Some a => Returned a
  | None => RaisedIndexError
  end.

(** The cell: a row of the test set is drawn, its features are reshaped to
    a 28 x 28 image (for display), its label is read, and the model is
    asked for the class of the image reshaped to a batch of one.  The
    result is the actual and the predicted label the cell prints. *)
Definition example_cell (m : keras.Model) (rng : nat -> nat -> bool) (draw : N)
    (test_features : np.ndarray R) (test_labels : np.ndarray Z)
  : outcome (Z * nat) :=
  selected_element ← of_result (numpy.randint 0 9999 draw);
  sample ← of_subscript (np.sub test_features (N.to_nat selected_element));
  features ← of_result (np.reshape sample [28; 28]);
  label ← of_subscript (np.item test_labels [N.to_nat selected_element]);
  scores ← of_result (notebook02.predict_cell m rng features);
  predicted ← of_result (numpy.argmax scores);
  mret (label, predicted).

End cell20.

(** ** Small inputs for the statements below *)

Definition sample_row : list Z := 5%Z :: List.map Z.of_nat (seq 0 784).

Definition sample_df : pd.DataFrame := pd.mk 785 [sample_row; sample_row].





Definition short_df : pd.DataFrame := pd.mk 4 [[7; 0; 128; 255]; [1; 3; 2; 1]]%Z.

Definition zero_weights : nat -> keras.LayerWeights R :=
  fun _ => keras.mkW (fun _ => 0%R) (fun _ => 0%R).

Definition blank_image : np.ndarray R := np.mk [1; 28; 28; 1] (repeat 0%R 784).


Definition two_images : np.ndarray R := np.mk [2; 28; 28; 1] (repeat 0%R 1568).

Definition two_labels : np.ndarray Z := np.mk [2] [7; 2]%Z.

Definition grid_a : np.ndarray Z := np.mk [2; 3; 1] [1; 2; 3; 4; 5; 6]%Z.

Definition grid_b : np.ndarray Z := np.mk [2; 3; 1] [1; 2; 9; 4; 5; 8]%Z.

Definition ones_kernel : keras.LayerWeights Z :=
  keras.mkW (fun _ => 1%Z) (fun _ => 100%Z).

Definition trained_zero : keras.Model :=
  notebook02.fit_cell zero_weights 60000 (notebook02.model zero_weights).

(** * Properties *)

(** ** The definitions on small inputs *)

Example reshape_wrong_size :
  np.reshape (np.mk [2; 3] [1; 2; 3; 4; 5; 6]%Z) [2; 2; 2] = Raise ValueError.
Proof. reflexivity. Qed.

Example reshape_keeps_buffer :
  np.reshape (np.mk [2; 3] [1; 2; 3; 4; 5; 6]%Z) [3; 2; 1]
  = Ok (np.mk [3; 2; 1] [1; 2; 3; 4; 5; 6]%Z).
Proof. reflexivity. Qed.

Example item_row_major :
  np.item (np.mk [3; 2; 1] [1; 2; 3; 4; 5; 6]%Z) [2; 1; 0] = Some 6%Z.
Proof. reflexivity. Qed.

Example sub_second_entry :
  np.sub (np.mk [3; 2; 1] [1; 2; 3; 4; 5; 6]%Z) 1 = Some (np.mk [2; 1] [3; 4]%Z).
Proof. reflexivity. Qed.

Example prepare_short_rows :
  prep.prepare short_df = Raise ValueError.
Proof. reflexivity. Qed.

Example prepare_full_rows :
  is_ok (prep.prepare sample_df) = true.
Proof. vm_compute. reflexivity. Qed.

Example divide_255_values :
  List.map prep.divide_255 [0; 255]%Z = [0%float; 1%float].
Proof. reflexivity. Qed.

Example divide_255_exact_values :
  List.map prep.divide_255_exact [0; 51; 255]%Z = [0 # 255; 51 # 255; 255 # 255]%Q.
Proof. reflexivity. Qed.

(** Pooling a 4 x 4 grid, and a 5 x 5 grid whose last row and column fall
    outside every window. *)
Example max_pool_4x4 :
  keras.max_pool2d 2 2 2
    (np.mk [4; 4; 1] [ 1;  2;  3;  4;
                       5;  6;  7;  8;
                       9; 10; 11; 12;
                      13; 14; 15; 16]%Z)
  = Ok (np.mk [2; 2; 1] [6; 8; 14; 16]%Z).
Proof. reflexivity. Qed.

Example max_pool_5x5 :
  keras.max_pool2d 2 2 2
    (np.mk [5; 5; 1] [ 1;  2;  3;  4; 90;
                       5;  6;  7;  8; 91;
                       9; 10; 11; 12; 92;
                      13; 14; 15; 16; 93;
                      94; 95; 96; 97; 98]%Z)
  = Ok (np.mk [2; 2; 1] [6; 8; 14; 16]%Z).
Proof. reflexivity. Qed.

Example max_pool_too_small :
  keras.max_pool2d 2 2 2 (np.mk [1; 4; 1] [1; 2; 3; 4]%Z) = Raise ValueError.
Proof. reflexivity. Qed.

Example conv2d_2x2_kernel_of_ones :
  keras.conv2d 1 2 2 (keras.mkW (fun _ => 1%Z) (fun _ => 100%Z))
    (np.mk [2; 3; 1] [1; 2; 3;
                      4; 5; 6]%Z)
  = Ok (np.mk [1; 2; 1] [112; 116]%Z).
Proof. reflexivity. Qed.

(** The rows of the summary recorded in the notebook: output shapes
    (26, 26, 32), (13, 13, 32), (5408), (64), (64), (10) and parameter
    counts 320, 0, 0, 346176, 0, 650. *)
Example summary_as_recorded :
  keras.summary (notebook02.model zero_weights) =
    [ ([26; 26; 32], 320%N);
      ([13; 13; 32], 0%N);
      ([13 * 13 * 32], 0%N);
      ([64], 346176%N);
      ([64], 0%N);
      ([10], 650%N) ].
Proof. vm_compute. reflexivity. Qed.

(** 1875 steps per pass over 60000 rows and 313 over 10000, as the
    progress lines of the notebook show. *)
Example steps_as_recorded :
  notebook02.steps_per_pass 60000 = 1875%N /\ notebook02.steps_per_pass 10000 = 313%N.
Proof. split; reflexivity. Qed.

(** In a training pass the draw decides the output of the regularizer. *)
Example dropout_training_depends_on_draw :
  keras.dropout (2 # 10) true (fun _ => true) (np.mk [2] [1; 2]%R)
  <> keras.dropout (2 # 10) true (fun _ => false) (np.mk [2] [1; 2]%R).
Proof.
  unfold keras.dropout. simpl. intros Heq. injection Heq as H1 _.
  assert (Hq : Q2R (2 # 10) = (2 / 10)%R) by (unfold Q2R; simpl; lra).
  rewrite Hq in H1. lra.
Qed.

(** ** Buffers cut into blocks of one length *)

Section Blocks.
Context {A : Type}.
Implicit Types (ls : list (list A)) (l : list A).

Lemma length_concat_uniform ls m :
  Forall (fun l => length l = m) ls ->
  length (concat ls) = length ls * m.
Proof.
  induction 1 as [|l ls Hl _ IH]; simpl; [reflexivity|].
  rewrite length_app, IH, Hl. reflexivity.
Qed.

(** The [i]-th block of the concatenation is the [i]-th list. *)
Lemma block_of_concat ls m i l :
  Forall (fun l => length l = m) ls ->
  nth_error ls i = Some l ->
  firstn m (skipn (i * m) (concat ls)) = l.
Proof.
  intros Hall. revert i.
  induction Hall as [|l0 ls Hl0 _ IH]; intros i Hi.
  - destruct i; discriminate.
  - destruct i as [|i]; simpl in *.
    + injection Hi as <-. rewrite <- Hl0. apply take_app_length.
    + rewrite <- Hl0, Nat.add_comm, <- skipn_skipn, drop_app_length.
      rewrite Hl0. apply IH, Hi.
Qed.

Lemma nth_error_concat_uniform ls m i j l :
  Forall (fun l => length l = m) ls ->
  nth_error ls i = Some l ->
  j < m ->
  nth_error (concat ls) (i * m + j) = nth_error l j.
Proof.
  intros Hall. revert i.
  induction Hall as [|l0 ls Hl0 _ IH]; intros i Hi Hj.
  - destruct i; discriminate.
  - destruct i as [|i]; simpl in *.
    + injection Hi as <-. apply nth_error_app1. lia.
    + rewrite nth_error_app2 by lia.
      replace (m + i * m + j - length l0) with (i * m + j) by lia.
      apply IH; assumption.
Qed.

(** A buffer produced block by block over [seq]. *)
Lemma length_flat_map_seq (g : nat -> list A) m s n :
  (forall a, length (g a) = m) ->
  length (flat_map g (seq s n)) = n * m.
Proof.
  intros Hg. revert s. induction n as [|n IH]; intros s; simpl; [reflexivity|].
  rewrite length_app, Hg, IH. reflexivity.
Qed.

Lemma nth_error_flat_map_seq (g : nat -> list A) m s n i k :
  (forall a, length (g a) = m) ->
  i < n -> k < m ->
  nth_error (flat_map g (seq s n)) (i * m + k) = nth_error (g (s + i)) k.
Proof.
  intros Hg. revert s i.
  induction n as [|n IH]; intros s i Hi Hk; [lia|].
  simpl. destruct i as [|i]; simpl.
  - rewrite Nat.add_0_r. apply nth_error_app1. rewrite Hg. exact Hk.
  - rewrite nth_error_app2 by (rewrite Hg; lia).
    rewrite Hg. replace (m + i * m + k - m) with (i * m + k) by lia.
    rewrite IH by lia. f_equal. f_equal. lia.
Qed.

End Blocks.

(** ** Reshaping the rows *)

Lemma pixels_uniform (df : pd.DataFrame) :
  pd.wf df ->
  Forall (fun l => length l = pd.columns df - 1) (List.map pd.pixels (pd.rows df)).
Proof.
  unfold pd.wf, pd.pixels. intros Hwf.
  apply List.Forall_map. eapply List.Forall_impl; [|exact Hwf].
  intros r Hr. cbv beta in *. rewrite length_skipn. lia.
Qed.

Lemma loc_values_length (df : pd.DataFrame) :
  pd.wf df ->
  length (np.data (pd.loc_from_1_values df)) = length (pd.rows df) * (pd.columns df - 1).
Proof.
  intros Hwf.
  change (length (concat (List.map pd.pixels (pd.rows df)))
          = length (pd.rows df) * (pd.columns df - 1)).
  rewrite (length_concat_uniform _ _ (pixels_uniform df Hwf)).
  rewrite length_map. reflexivity.
Qed.

(** The reshape of the feature cell succeeds exactly on rows of 784
    pixels, or on a table without rows. *)
Lemma reshape_features_spec (df : pd.DataFrame) :
  pd.wf df ->
  prep.reshape_features (pd.loc_from_1_values df) =
  if bool_decide (pd.rows df = [] \/ pd.columns df - 1 = 784)
  then Ok (np.mk [length (pd.rows df); 28; 28; 1] (np.data (pd.loc_from_1_values df)))
  else Raise ValueError.
Proof.
  intros Hwf. unfold prep.reshape_features, np.reshape.
  rewrite (loc_values_length df Hwf).
  change (hd 0 (np.shape (pd.loc_from_1_values df))) with (length (pd.rows df)).
  change (np.size_of [length (pd.rows df); 28; 28; 1])
    with (length (pd.rows df) * 784).
  case_bool_decide as Hd.
  - replace (_ =? _) with true; [reflexivity|].
    symmetry. apply Nat.eqb_eq.
    destruct Hd as [-> | ->]; reflexivity.
  - replace (_ =? _) with false; [reflexivity|].
    symmetry. apply Nat.eqb_neq. intros Heq. apply Hd.
    destruct (Nat.eq_dec (length (pd.rows df)) 0) as [Hz|Hnz].
    + left. destruct (pd.rows df); [reflexivity|discriminate].
    + right. nia.
Qed.

(** C1. When every row carries 784 pixels the feature reshape succeeds;
    its buffer is the rows' pixel sequences one after the other, it has one
    entry along the first axis per row, and that entry is a 28 x 28 x 1
    tensor whose C-order buffer is the row's pixel sequence itself, so that
    cell [(r, c, 0)] is pixel [r * 28 + c] of the row. *)
Theorem reshape_row_major (df : pd.DataFrame) :
  Forall (fun r => length (pd.pixels r) = 784) (pd.rows df) ->
  exists t,
    prep.reshape_features (pd.loc_from_1_values df) = Ok t /\
    np.shape t = [length (pd.rows df); 28; 28; 1] /\
    np.ravel t = concat (List.map pd.pixels (pd.rows df)) /\
    forall i row, nth_error (pd.rows df) i = Some row ->
      exists ti,
        np.sub t i = Some ti /\
        np.shape ti = [28; 28; 1] /\
        np.ravel ti = pd.pixels row /\
        forall r c, r < 28 -> c < 28 ->
          np.item t [i; r; c; 0] = nth_error (pd.pixels row) (r * 28 + c) /\
          np.item ti [r; c; 0] = nth_error (pd.pixels row) (r * 28 + c).
Proof.
  intros Hpix.
  assert (Hblocks : Forall (fun l => length l = 784) (List.map pd.pixels (pd.rows df))).
  { apply List.Forall_map. exact Hpix. }
  assert (Hlen : length (np.data (pd.loc_from_1_values df)) = length (pd.rows df) * 784).
  { change (length (concat (List.map pd.pixels (pd.rows df)))
            = length (pd.rows df) * 784).
    rewrite (length_concat_uniform _ _ Hblocks), length_map. reflexivity. }
  exists (np.mk [length (pd.rows df); 28; 28; 1] (np.data (pd.loc_from_1_values df))).
  split; [|split; [reflexivity|split]].
  - unfold prep.reshape_features, np.reshape. rewrite Hlen.
    change (hd 0 (np.shape (pd.loc_from_1_values df))) with (length (pd.rows df)).
    change (np.size_of [length (pd.rows df); 28; 28; 1])
      with (length (pd.rows df) * 784).
    rewrite Nat.eqb_refl. reflexivity.
  - reflexivity.
  - intros i row Hi.
    assert (Hlt : i < length (pd.rows df)).
    { apply nth_error_Some. rewrite Hi. discriminate. }
    assert (Hrow : nth_error (List.map pd.pixels (pd.rows df)) i = Some (pd.pixels row)).
    { rewrite nth_error_map, Hi. reflexivity. }
    assert (Hblock : firstn 784 (skipn (i * 784)
                       (concat (List.map pd.pixels (pd.rows df)))) = pd.pixels row).
    { apply block_of_concat; assumption. }
    exists (np.mk [28; 28; 1]
              (firstn 784 (skipn (i * 784) (np.data (pd.loc_from_1_values df))))).
    split; [|split; [reflexivity|split]].
    + unfold np.sub. simpl np.shape. cbv beta iota.
      apply Nat.ltb_lt in Hlt. rewrite Hlt. reflexivity.
    + unfold np.ravel. simpl np.data.
      change (np.size_of [28; 28; 1]) with 784. exact Hblock.
    + intros r c Hr Hc.
      assert (Hoff : r * 28 + c < 784) by lia.
      split.
      * unfold np.item. simpl np.shape. simpl np.data. unfold np.ravel_index.
        apply Nat.ltb_lt in Hlt, Hr, Hc. rewrite Hlt, Hr, Hc.
        change (0 <? 1) with true. cbv beta iota.
        change (np.size_of [28; 28; 1]) with 784.
        change (np.size_of [28; 1]) with 28.
        change (np.size_of [1]) with 1.
        change (np.size_of []) with 1.
        replace (i * 784 + (r * 28 + (c * 1 + (0 * 1 + 0)))) with (i * 784 + (r * 28 + c)) by lia.
        apply nth_error_concat_uniform with (m := 784); assumption.
      * unfold np.item. simpl np.shape. simpl np.data. unfold np.ravel_index.
        apply Nat.ltb_lt in Hr, Hc. rewrite Hr, Hc.
        change (0 <? 1) with true. cbv beta iota.
        change (np.size_of [28; 28; 1]) with 784.
        change (np.size_of [28; 1]) with 28.
        change (np.size_of [1]) with 1.
        change (np.size_of []) with 1.
        replace (r * 28 + (c * 1 + (0 * 1 + 0))) with (r * 28 + c) by lia.
        change (concat (List.map (skipn 1) (pd.rows df)))
          with (concat (List.map pd.pixels (pd.rows df))).
        rewrite Hblock. reflexivity.
Qed.

Lemma reshape_row_major_witness :
  Forall (fun r => length (pd.pixels r) = 784) (pd.rows sample_df) /\
  exists t,
    prep.reshape_features (pd.loc_from_1_values sample_df) = Ok t /\
    np.shape t = [2; 28; 28; 1].
Proof.
  assert (Hpix : Forall (fun r => length (pd.pixels r) = 784) (pd.rows sample_df)).
  { repeat constructor. }
  split; [exact Hpix|].
  destruct (reshape_row_major sample_df Hpix) as (t & Ht & Hsh & _).
  exists t. split; [exact Ht | exact Hsh].
Defined.

(** ** Rows of the wrong length *)











(** On a file whose lines all have the same number of fields the table
    holds no missing value, and its preparation is the preparation of the
    table of integers. *)
Lemma prepare_rectangular_file (file : list (list Z)) (w : nat) :
  file <> [] -> 1 <= w ->
  Forall (fun line => length line = w) file ->
  csv.read_csv file = Ok (csv.mk w (List.map (List.map Some) file)) /\
  csv.prepare (csv.mk w (List.map (List.map Some) file)) =
  match prep.prepare (pd.mk w file) with
  | Ok (features, labels) => Ok (features, np.map Some labels)
  | Raise e => Raise e
  end.
Proof.
  intros Hne Hw Hall.
  assert (Hkeep : forall l : list (list Z),
             Forall (fun line => length line = w) l ->
             List.filter (fun line => negb (csv.blank line)) l = l).
  { induction 1 as [|line l Hline _ IH]; [reflexivity|].
    simpl. destruct line; [simpl in Hline; lia|]. simpl. rewrite IH. reflexivity. }
  assert (Hpad : forall l : list (list Z),
             Forall (fun line => length line = w) l ->
             List.map (csv.pad w) l = List.map (List.map Some) l).
  { induction 1 as [|line l Hline _ IH]; [reflexivity|].
    simpl. rewrite IH. f_equal. unfold csv.pad.
    rewrite Hline, Nat.sub_diag. apply app_nil_r. }
  split.
  - unfold csv.read_csv. rewrite (Hkeep file Hall).
    destruct file as [|first rest]; [congruence|].
    inversion Hall as [|? ? Hfirst Hrest]; subst.
    replace (forallb _ rest) with true.
    + rewrite (Hpad (first :: rest) Hall). reflexivity.
    + symmetry. apply forallb_forall. intros line Hin.
      rewrite List.Forall_forall in Hrest. apply Nat.leb_le. rewrite (Hrest line Hin). lia.
  - unfold csv.prepare, prep.prepare, prep.prepare_with.
    assert (Hdata : concat (List.map (skipn 1) (List.map (List.map Some) file))
                    = List.map Some (concat (List.map (skipn 1) file))).
    { clear. induction file as [|line l IH]; [reflexivity|].
      simpl. rewrite List.map_app, <- IH. f_equal. destruct line; reflexivity. }
    unfold prep.reshape_features, np.reshape, csv.loc_from_1_values, pd.loc_from_1_values.
    cbn [np.data np.shape csv.rows csv.columns pd.rows pd.columns hd].
    rewrite Hdata, !length_map.
    destruct (_ =? _); [|reflexivity]. cbn [mbind result_bind].
    unfold csv.col_0_values, pd.col_0_values. cbn [csv.rows csv.columns pd.rows pd.columns].
    destruct (0 <? w) eqn:H0; [|apply Nat.ltb_ge in H0; lia].
    cbn [mbind result_bind mret result_ret]. unfold np.map. cbn [np.data np.shape].
    rewrite !List.map_map, length_map.
    assert (Hlabels : List.map (fun r : list Z => hd None (List.map Some r)) file
                      = List.map (fun r : list Z => Some (hd 0%Z r)) file).
    { apply map_ext_in. intros line Hin.
      rewrite List.Forall_forall in Hall. specialize (Hall line Hin).
      destruct line; [simpl in Hall; lia|reflexivity]. }
    rewrite Hlabels. reflexivity.
Qed.

(** ** Normalisation *)

Lemma divide_255_checks (x : Z) :
  (0 <= x <= 255)%Z -> prep.divide_255_check x = true.
Proof.
  intros Hx.
  assert (Hall : forallb (fun n => prep.divide_255_check (Z.of_nat n)) (seq 0 256) = true)
    by (vm_compute; reflexivity).
  rewrite forallb_forall in Hall.
  specialize (Hall (Z.to_nat x)).
  rewrite Z2Nat.id in Hall by lia.
  apply Hall, in_seq. lia.
Qed.

Lemma divide_255_exact_bounds (x : Z) :
  (0 <= x <= 255)%Z ->
  (0 <= prep.divide_255_exact x <= 1)%Q /\
  (prep.divide_255_exact x * 255 == inject_Z x)%Q.
Proof.
  intros Hx. unfold prep.divide_255_exact. split; [split|].
  - unfold Qle, Qdiv, Qmult, Qinv, inject_Z. simpl. lia.
  - unfold Qle, Qdiv, Qmult, Qinv, inject_Z. simpl. lia.
  - field.
Qed.

(** C2. On an array of integers between 0 and 255, every element of
    [features / 255.0] lies between 0.0 and 1.0 and, multiplied by 255,
    equals the integer it came from.  This holds of the [float64] division
    the notebook performs (all 256 pixel values are checked) and of the
    division over exact rationals. *)
Theorem normalize_unit_interval (a : np.ndarray Z) :
  Forall (fun x => (0 <= x <= 255)%Z) (np.data a) ->
  np.shape (prep.normalize a) = np.shape a /\
  Forall2 (fun x f =>
             PrimFloat.leb 0%float f = true /\
             PrimFloat.leb f 1%float = true /\
             PrimFloat.eqb (PrimFloat.mul f 255%float) (prep.to_float x) = true)
          (np.data a) (np.data (prep.normalize a)) /\
  Forall2 (fun x q => (0 <= q <= 1)%Q /\ (q * 255 == inject_Z x)%Q)
          (np.data a) (np.data (prep.normalize_exact a)).
Proof.
  intros Hrange. split; [reflexivity|].
  unfold prep.normalize, prep.normalize_exact, np.map. simpl np.data.
  split.
  - induction Hrange as [|x l Hx _ IH]; simpl; constructor; [|exact IH].
    pose proof (divide_255_checks x Hx) as Hc.
    unfold prep.divide_255_check in Hc.
    apply andb_prop in Hc as [Hc Heq]. apply andb_prop in Hc as [Hlo Hhi].
    repeat split; assumption.
  - induction Hrange as [|x l Hx _ IH]; simpl; constructor; [|exact IH].
    apply divide_255_exact_bounds, Hx.
Qed.

Lemma normalize_unit_interval_witness :
  Forall2 (fun x q => (0 <= q <= 1)%Q /\ (q * 255 == inject_Z x)%Q)
          [0; 51; 255]%Z
          (np.data (prep.normalize_exact (np.mk [3] [0; 51; 255]%Z))).
Proof.
  refine (proj2 (proj2 (normalize_unit_interval (np.mk [3] [0; 51; 255]%Z) _))).
  repeat constructor; simpl; lia.
Defined.

(** ** The layer stack *)

Import keras.

(** The model cell leaves exactly six layers in the model: the stack does
    not have five. *)
Lemma five_layers_refuted :
  length (layers (notebook02.model zero_weights)) <> 5.
Proof. simpl. lia. Qed.

(** C3, as amended. Whatever the weights are initialised to, the model
    cells assemble the same six layers: a feature extractor, a downsampler,
    a flattener, a hidden classifier, a regularizer and an output
    classifier, in that order; training does not change the stack. *)
Theorem model_has_six_layers (init trained : nat -> LayerWeights R) (samples : N) :
  layers (notebook02.model init) =
    [ Conv2D 32 (3, 3) (Some [28; 28; 1]);
      MaxPooling2D (2, 2) 2;
      Flatten;
      Dense 64 relu;
      Dropout (2 # 10);
      Dense 10 softmax ] /\
  length (layers (notebook02.model init)) = 6 /\
  List.map notebook02.role (layers (notebook02.model init)) =
    [ notebook02.feature_extractor; notebook02.downsampler; notebook02.flattener;
      notebook02.hidden_classifier; notebook02.regularizer;
      notebook02.output_classifier ] /\
  layers (notebook02.fit_cell trained samples (notebook02.model init)) =
    layers (notebook02.model init).
Proof. repeat split. Qed.

(** ** The regularizer outside training *)

Lemma call_inference_ignores_draws (d1 d2 : nat -> bool) (l : Layer)
    (w : LayerWeights R) (x : np.ndarray R) :
  call false d1 l w x = call false d2 l w x.
Proof. destruct l; reflexivity. Qed.

Lemma forward_inference_ignores_draws (rng1 rng2 : nat -> nat -> bool)
    (ws : nat -> LayerWeights R) (ls : list Layer) :
  forall k x, forward_from k false rng1 ws ls x = forward_from k false rng2 ws ls x.
Proof.
  induction ls as [|l ls IH]; intros k x; simpl; [reflexivity|].
  rewrite (call_inference_ignores_draws (rng1 k) (rng2 k)).
  destruct (call false (rng2 k) l (ws k) x); simpl; [apply IH | reflexivity].
Qed.

Lemma mapM_result_ext {A B : Type} (f g : A -> result B) (l : list A) :
  (forall a, f a = g a) -> mapM f l = mapM g l.
Proof.
  intros Hfg. induction l as [|a l IH]; simpl; [reflexivity|].
  rewrite Hfg, IH. reflexivity.
Qed.

Lemma nth_error_lookup {A : Type} (l : list A) (k : nat) :
  nth_error l k = l !! k.
Proof.
  revert k. induction l as [|a l IH]; intros [|k]; simpl; try reflexivity.
  apply IH.
Qed.

Lemma dropout_training_zeroes (rate : Q) (dropped : nat -> bool) (x : np.ndarray R)
    (k : nat) :
  k < length (np.data x) ->
  dropped k = true ->
  nth_error (np.data (dropout rate true dropped x)) k = Some 0%R.
Proof.
  intros Hk Hd. unfold dropout. simpl np.data.
  rewrite nth_error_lookup, list_lookup_imap.
  destruct (np.data x !! k) as [v|] eqn:Hv; simpl.
  - rewrite Hd. reflexivity.
  - apply lookup_ge_None in Hv. lia.
Qed.

(** C9. The fifth layer of the model is [Dropout] with fraction 0.2.  In a
    training pass it zeroes the units the random draw selects; outside
    training it returns its input as it is, whatever the draw.  Hence the
    forward pass outside training and [predict] do not depend on the random
    draws: two runs on the same input give the same class scores. *)
Theorem inference_is_deterministic (m : Model) (rng1 rng2 : nat -> nat -> bool)
    (x : np.ndarray R) :
  (forall init, nth_error (layers (notebook02.model init)) 4 = Some (Dropout (2 # 10))) /\
  (2 # 10 == 0.2)%Q /\
  (forall rate dropped y k,
     k < length (np.data y) -> dropped k = true ->
     nth_error (np.data (dropout rate true dropped y)) k = Some 0%R) /\
  (forall rate dropped y, dropout rate false dropped y = y) /\
  (forall k ws ls y,
     forward_from k false rng1 ws ls y = forward_from k false rng2 ws ls y) /\
  predict m rng1 x = predict m rng2 x /\
  notebook02.predict_cell m rng1 x = notebook02.predict_cell m rng2 x.
Proof.
  assert (Hpredict : forall z, predict m rng1 z = predict m rng2 z).
  { intros z. unfold predict. destruct (np.shape z) as [|batch sh]; [reflexivity|].
    case_bool_decide; [|reflexivity].
    rewrite (mapM_result_ext (run_sample false rng1 m z) (run_sample false rng2 m z));
      [reflexivity|].
    intros b. unfold run_sample. destruct (np.sub z b); [|reflexivity].
    apply forward_inference_ignores_draws. }
  split; [reflexivity|].
  split; [reflexivity|].
  split; [intros; apply dropout_training_zeroes; assumption|].
  split; [reflexivity|].
  split; [intros; apply forward_inference_ignores_draws|].
  split; [apply Hpredict|].
  unfold notebook02.predict_cell.
  destruct (np.reshape x [1; 28; 28; 1]) as [z|e]; simpl; [|reflexivity].
  rewrite Hpredict. reflexivity.
Qed.

(** ** Saving the model *)

(** C10. The save cell of notebook 02 never asks before writing: whether or
    not a file named [mnist-model.h5] exists, the file holds afterwards the
    checkpoint of the model being saved, layers, weights and the optimizer
    the model was compiled with, and every other file is as before. *)
Theorem save_cell_overwrites (init trained : nat -> LayerWeights R) (samples : N)
    (answer : bool) (fs : gmap string Checkpoint) :
  let m := notebook02.fit_cell trained samples (notebook02.model init) in
  let out := notebook02.save_cell m answer fs in
  asked out = false /\
  files out !! "mnist-model.h5"%string =
    Some {| ck_layers := layers m; ck_weights := trained; ck_optimizer := optimizer m |} /\
  optimizer m =
    Some (mkOpt "adam" "sparse_categorical_crossentropy" ["accuracy"%string]
            (3 * notebook02.steps_per_pass samples)) /\
  (forall path, path <> "mnist-model.h5"%string -> files out !! path = fs !! path) /\
  (forall old, fs !! "mnist-model.h5"%string = Some old ->
     files out = <["mnist-model.h5"%string :=
                    {| ck_layers := layers m; ck_weights := trained;
                       ck_optimizer := optimizer m |}]> fs).
Proof.
  simpl. unfold notebook02.save_cell, save. simpl.
  split; [reflexivity|].
  split; [apply lookup_insert_eq|].
  split; [reflexivity|].
  split; [|reflexivity].
  intros path Hne. apply lookup_insert_ne. congruence.
Qed.

(** ** Rank-3 arrays *)

Section Rank3.
Context {A : Type}.

Lemma tabulate3_wf (d0 d1 d2 : nat) (f : nat -> nat -> nat -> A) :
  np.wf (np.tabulate3 d0 d1 d2 f).
Proof.
  unfold np.wf, np.tabulate3. simpl np.data. simpl np.shape.
  rewrite (length_flat_map_seq _ (d1 * d2)).
  - simpl. lia.
  - intros i. rewrite (length_flat_map_seq _ d2); [reflexivity|].
    intros j. rewrite length_map, length_seq. reflexivity.
Qed.

Lemma ravel_index3 (d0 d1 d2 i j k : nat) :
  i < d0 -> j < d1 -> k < d2 ->
  np.ravel_index [d0; d1; d2] [i; j; k] = Some (i * (d1 * d2) + (j * d2 + k)).
Proof.
  intros Hi Hj Hk. simpl.
  apply Nat.ltb_lt in Hi, Hj, Hk. rewrite Hi, Hj, Hk.
  f_equal. lia.
Qed.

Lemma item_tabulate3 (d0 d1 d2 : nat) (f : nat -> nat -> nat -> A) (i j k : nat) :
  i < d0 -> j < d1 -> k < d2 ->
  np.item (np.tabulate3 d0 d1 d2 f) [i; j; k] = Some (f i j k).
Proof.
  intros Hi Hj Hk. unfold np.item, np.tabulate3. simpl np.shape. simpl np.data.
  rewrite ravel_index3 by assumption.
  rewrite (nth_error_flat_map_seq _ (d1 * d2)); [| |assumption|nia].
  - rewrite (nth_error_flat_map_seq _ d2); [| |assumption|assumption].
    + simpl. rewrite nth_error_map, nth_error_seq.
      apply Nat.ltb_lt in Hk. rewrite Hk. reflexivity.
    + intros b. rewrite length_map, length_seq. reflexivity.
  - intros a. rewrite (length_flat_map_seq _ d2); [reflexivity|].
    intros b. rewrite length_map, length_seq. reflexivity.
Qed.


End Rank3.

(** ** The pooling layer *)











(** ** The forward pass *)

Lemma length_activate (a : Activation) (v : list R) :
  length (activate a v) = length v.
Proof.
  destruct a; simpl; [reflexivity|apply length_map|].
  unfold softmax_vec. rewrite !length_map. reflexivity.
Qed.

Lemma dense_ok (units : nat) (a : Activation) (w : LayerWeights R) (x : np.ndarray R)
    (n : nat) :
  np.shape x = [n] ->
  exists v, length v = units /\ dense units a w x = Ok (np.mk [units] (activate a v)).
Proof.
  intros Hsh. unfold dense, dense_affine. rewrite Hsh.
  eexists. split; [|reflexivity].
  rewrite length_map, length_seq. reflexivity.
Qed.

(** A layer accepts every well-formed sample of a shape [output_shape]
    accepts, and returns a well-formed array of the shape it announces. *)
Lemma call_output_shape (training : bool) (dropped : nat -> bool) (l : Layer)
    (w : LayerWeights R) (x : np.ndarray R) (sh : list nat) :
  np.wf x ->
  output_shape l (np.shape x) = Some sh ->
  exists y, call training dropped l w x = Ok y /\ np.shape y = sh /\ np.wf y.
Proof.
  intros Hwf Hout. destruct l as [filters [kh kw] ish | [ph pw] stride | | units a | rate].
  - unfold call, conv2d. unfold output_shape in Hout.
    destruct (np.shape x) as [|h [|wd [|c [|? ?]]]]; try discriminate.
    destruct ((1 <=? kh) && (kh <=? h) && (1 <=? kw) && (kw <=? wd)); [|discriminate].
    injection Hout as <-.
    eexists. split; [reflexivity|]. split; [reflexivity|apply tabulate3_wf].
  - unfold call, max_pool2d. unfold output_shape in Hout.
    destruct (np.shape x) as [|h [|wd [|c [|? ?]]]]; try discriminate.
    destruct ((1 <=? ph) && (ph <=? h) && (1 <=? pw) && (pw <=? wd) && (1 <=? stride));
      [|discriminate].
    injection Hout as <-.
    eexists. split; [reflexivity|]. split; [reflexivity|apply tabulate3_wf].
  - injection Hout as <-. exists (flatten x).
    split; [reflexivity|]. split; [reflexivity|].
    unfold np.wf, flatten in *. simpl np.data. simpl np.shape.
    rewrite Hwf. simpl. lia.
  - simpl in Hout.
    destruct (np.shape x) as [|n [|? ?]] eqn:Hsh; try discriminate.
    injection Hout as <-.
    destruct (dense_ok units a w x n Hsh) as (v & Hv & Hd).
    eexists. split; [exact Hd|]. split; [reflexivity|].
    unfold np.wf. simpl np.data. simpl np.shape.
    rewrite length_activate, Hv. simpl. lia.
  - injection Hout as <-. exists (dropout rate training dropped x).
    split; [reflexivity|]. unfold dropout. destruct training; [|auto].
    split; [reflexivity|]. unfold np.wf in *. simpl np.data. simpl np.shape.
    rewrite length_imap. exact Hwf.
Qed.

(** In the model the downsampler is only ever fed 26 x 26 grids of 32
    channels: what the first layer returns on a sample of the declared
    input shape. *)
Lemma downsampler_input_shape (training : bool) (dropped : nat -> bool)
    (w : LayerWeights R) (sample : np.ndarray R) :
  np.wf sample ->
  np.shape sample = [28; 28; 1] ->
  exists y,
    call training dropped (Conv2D 32 (3, 3) (Some [28; 28; 1])) w sample = Ok y /\
    np.shape y = [26; 26; 32] /\ np.wf y.
Proof.
  intros Hwf Hsh. apply call_output_shape; [exact Hwf|].
  rewrite Hsh. reflexivity.
Qed.

Lemma forward_output_shape (training : bool) (rng : nat -> nat -> bool)
    (ws : nat -> LayerWeights R) (ls : list Layer) :
  forall k x sh,
    np.wf x ->
    output_shape_from (np.shape x) ls = Some sh ->
    exists y, forward_from k training rng ws ls x = Ok y /\ np.shape y = sh /\ np.wf y.
Proof.
  induction ls as [|l ls IH]; intros k x sh Hwf Hout; simpl in *.
  - injection Hout as <-. exists x. auto.
  - destruct (output_shape l (np.shape x)) as [sh'|] eqn:Hl; [|discriminate].
    destruct (call_output_shape training (rng k) l (ws k) x sh' Hwf Hl)
      as (y & Hy & Hsh & Hwfy).
    rewrite Hy. simpl. apply IH; [exact Hwfy|]. rewrite Hsh. exact Hout.
Qed.

Lemma forward_from_app (training : bool) (rng : nat -> nat -> bool)
    (ws : nat -> LayerWeights R) (ls1 ls2 : list Layer) :
  forall k x,
    forward_from k training rng ws (ls1 ++ ls2) x =
    (y ← forward_from k training rng ws ls1 x;
     forward_from (k + length ls1) training rng ws ls2 y).
Proof.
  induction ls1 as [|l ls1 IH]; intros k x; simpl.
  - rewrite Nat.add_0_r. reflexivity.
  - destruct (call training (rng k) l (ws k) x) as [y|e]; simpl; [|reflexivity].
    rewrite IH. replace (S k + length ls1) with (k + S (length ls1)) by lia.
    reflexivity.
Qed.

(** *** Softmax *)

Lemma rsum_map_div (l : list R) (s : R) :
  rsum (List.map (fun t => (t / s)%R) l) = (rsum l / s)%R.
Proof.
  unfold rsum. induction l as [|a l IH]; simpl.
  - unfold Rdiv. ring.
  - rewrite IH. unfold Rdiv. ring.
Qed.

Lemma rsum_exp_nonneg (v : list R) : (0 <= rsum (List.map exp v))%R.
Proof.
  unfold rsum. induction v as [|a v IH]; simpl; [lra|].
  pose proof (exp_pos a). lra.
Qed.

Lemma rsum_exp_pos (v : list R) : v <> [] -> (0 < rsum (List.map exp v))%R.
Proof.
  destruct v as [|a v]; [congruence|]. intros _.
  pose proof (exp_pos a). pose proof (rsum_exp_nonneg v).
  unfold rsum in *. simpl. lra.
Qed.

Lemma softmax_sums_to_one (v : list R) :
  v <> [] -> rsum (softmax_vec v) = 1%R.
Proof.
  intros Hv. unfold softmax_vec. rewrite rsum_map_div.
  pose proof (rsum_exp_pos v Hv). field. lra.
Qed.

Lemma softmax_scores_positive (v : list R) :
  v <> [] -> Forall (fun p => (0 < p)%R) (softmax_vec v).
Proof.
  intros Hv. unfold softmax_vec.
  pose proof (rsum_exp_pos v Hv) as Hs.
  apply List.Forall_map, List.Forall_map, List.Forall_forall.
  intros a _. apply Rdiv_lt_0_compat; [apply exp_pos|exact Hs].
Qed.

(** The stack of the notebook on one sample of shape (28, 28, 1). *)
Lemma notebook_forward (rng : nat -> nat -> bool) (ws : nat -> LayerWeights R)
    (init : nat -> LayerWeights R) (sample : np.ndarray R) :
  np.wf sample ->
  np.shape sample = [28; 28; 1] ->
  exists v,
    length v = 10 /\
    forward_from 0 false rng ws (layers (notebook02.model init)) sample =
      Ok (np.mk [10] (softmax_vec v)).
Proof.
  intros Hwf Hsh.
  change (layers (notebook02.model init))
    with ([Conv2D 32 (3, 3) (Some [28; 28; 1]); MaxPooling2D (2, 2) 2; Flatten;
           Dense 64 relu; Dropout (2 # 10)] ++ [Dense 10 softmax]).
  rewrite forward_from_app.
  destruct (forward_output_shape false rng ws
              [Conv2D 32 (3, 3) (Some [28; 28; 1]); MaxPooling2D (2, 2) 2; Flatten;
               Dense 64 relu; Dropout (2 # 10)] 0 sample [64] Hwf)
    as (y & Hy & Hshy & _).
  { rewrite Hsh. vm_compute. reflexivity. }
  rewrite Hy. simpl mbind.
  change (forward_from (0 + 5) false rng ws [Dense 10 softmax] y)
    with (z ← dense 10 softmax (ws 5) y; Ok z).
  destruct (dense_ok 10 softmax (ws 5) y 64 Hshy) as (v & Hv & Hd).
  rewrite Hd. exists v. split; [exact Hv|reflexivity].
Qed.

(** C5. The model of the notebook (whatever its weights), asked to predict
    on a batch holding one tensor of shape (28, 28, 1), returns an array of
    shape (1, 10): entry 0 is a sequence of 10 class scores, there is no
    entry 1, the scores are positive and they sum to 1 over the reals.  The
    prediction cell of the notebook returns that sequence. *)
Theorem predict_single_sample (m : Model) (rng : nat -> nat -> bool) (x : np.ndarray R) :
  layers m = layers (notebook02.model (weights m)) ->
  np.shape x = [1; 28; 28; 1] ->
  np.wf x ->
  exists y scores,
    predict m rng x = Ok y /\
    np.shape y = [1; 10] /\
    np.sub y 0 = Some scores /\
    np.sub y 1 = None /\
    np.shape scores = [10] /\
    length (np.data scores) = 10 /\
    Forall (fun p => (0 < p)%R) (np.data scores) /\
    rsum (np.data scores) = 1%R /\
    notebook02.predict_cell m rng x = Ok scores.
Proof.
  intros Hlayers Hsh Hwf.
  assert (Hlen : length (np.data x) = 784).
  { unfold np.wf in Hwf. rewrite Hwf, Hsh. reflexivity. }
  assert (Hsub : np.sub x 0 = Some (np.mk [28; 28; 1] (np.data x))).
  { unfold np.sub. rewrite Hsh.
    change (0 <? 1) with true. cbv beta iota.
    change (np.size_of [28; 28; 1]) with 784.
    change (0 * 784) with 0. rewrite skipn_O, <- Hlen, firstn_all. reflexivity. }
  destruct (notebook_forward rng (weights m) (weights m)
              (np.mk [28; 28; 1] (np.data x))) as (v & Hv & Hfwd);
    [exact Hlen|reflexivity|].
  assert (Hne : v <> []) by (intros ->; discriminate).
  assert (Hrun : run_sample false rng m x 0 = Ok (np.mk [10] (softmax_vec v))).
  { unfold run_sample. rewrite Hsub, Hlayers. exact Hfwd. }
  assert (Hscores : length (softmax_vec v) = 10).
  { unfold softmax_vec. rewrite !length_map. exact Hv. }
  assert (Hpredict : predict m rng x = Ok (np.mk [1; 10] (softmax_vec v ++ []))).
  { unfold predict. rewrite Hsh.
    rewrite bool_decide_eq_true_2.
    - change (seq 0 1) with [0]. simpl mapM. rewrite Hrun. reflexivity.
    - right. unfold input_shape_of. rewrite Hlayers. reflexivity. }
  exists (np.mk [1; 10] (softmax_vec v ++ [])), (np.mk [10] (softmax_vec v)).
  assert (Hentry : np.sub (np.mk [1; 10] (softmax_vec v ++ [])) 0
                   = Some (np.mk [10] (softmax_vec v))).
  { unfold np.sub. simpl np.shape. simpl np.data.
    change (0 <? 1) with true. cbv beta iota.
    change (np.size_of [10]) with 10. change (0 * 10) with 0.
    rewrite skipn_O, app_nil_r, <- Hscores, firstn_all. reflexivity. }
  split; [exact Hpredict|].
  split; [reflexivity|].
  split; [exact Hentry|].
  split; [reflexivity|].
  split; [reflexivity|].
  split; [exact Hscores|].
  split; [apply softmax_scores_positive, Hne|].
  split; [apply softmax_sums_to_one, Hne|].
  unfold notebook02.predict_cell, np.reshape.
  change (np.size_of [1; 28; 28; 1]) with 784. rewrite Hlen, Nat.eqb_refl.
  simpl mbind.
  replace (np.mk [1; 28; 28; 1] (np.data x)) with x
    by (destruct x as [shx dx]; simpl in Hsh; rewrite Hsh; reflexivity).
  rewrite Hpredict. cbn [mbind result_bind]. rewrite Hentry. reflexivity.
Qed.

Lemma predict_single_sample_witness :
  exists y,
    predict (notebook02.fit_cell zero_weights 60000 (notebook02.model zero_weights))
            (fun _ _ => false) blank_image = Ok y /\
    np.shape y = [1; 10].
Proof.
  destruct (predict_single_sample
              (notebook02.fit_cell zero_weights 60000 (notebook02.model zero_weights))
              (fun _ _ => false) blank_image) as (y & _ & Hy & Hsh & _).
  - reflexivity.
  - reflexivity.
  - reflexivity.
  - exists y. split; [exact Hy | exact Hsh].
Defined.

(** * Further properties of the notebooks' code *)

(** ** Preparation of a well-formed table *)

Lemma nth_error_pixels (row : list Z) (k : nat) :
  nth_error (pd.pixels row) k = nth_error row (1 + k).
Proof. unfold pd.pixels. apply nth_error_skipn. Qed.

(** On a table of 785 columns the preparation returns features and labels
    that line up: as many labels as feature tensors, label [i] is the first
    cell of row [i], and cell [(r, c, 0)] of tensor [i] is the division
    applied to cell [1 + r * 28 + c] of that row. *)
Theorem prepare_aligns_features_and_labels {F : Type} (divide : Z -> F)
    (df : pd.DataFrame) :
  pd.wf df ->
  pd.columns df = 785 ->
  exists features labels,
    prep.prepare_with divide df = Ok (features, labels) /\
    np.shape features = [length (pd.rows df); 28; 28; 1] /\
    np.shape labels = [length (pd.rows df)] /\
    np.wf features /\ np.wf labels /\
    forall i row, nth_error (pd.rows df) i = Some row ->
      np.item labels [i] = nth_error row 0 /\
      forall r c, r < 28 -> c < 28 ->
        np.item features [i; r; c; 0] = option_map divide (nth_error row (1 + (r * 28 + c))).
Proof.
  intros Hwf Hcols.
  assert (Hblocks : Forall (fun l => length l = 784) (List.map pd.pixels (pd.rows df))).
  { pose proof (pixels_uniform df Hwf) as Hp. rewrite Hcols in Hp. exact Hp. }
  assert (Hlen : length (np.data (pd.loc_from_1_values df)) = length (pd.rows df) * 784).
  { rewrite (loc_values_length df Hwf), Hcols. reflexivity. }
  exists (np.map divide (np.mk [length (pd.rows df); 28; 28; 1]
                           (np.data (pd.loc_from_1_values df)))),
         (np.mk [length (pd.rows df)] (List.map (fun r => hd 0%Z r) (pd.rows df))).
  split.
  { unfold prep.prepare_with. rewrite (reshape_features_spec df Hwf).
    rewrite bool_decide_eq_true_2 by (right; rewrite Hcols; reflexivity).
    cbn [mbind result_bind]. unfold pd.col_0_values. rewrite Hcols. reflexivity. }
  split; [reflexivity|]. split; [reflexivity|].
  split.
  { unfold np.wf.
    change (length (List.map divide (np.data (pd.loc_from_1_values df)))
            = length (pd.rows df) * 784).
    rewrite length_map. exact Hlen. }
  split.
  { unfold np.wf. simpl np.data. simpl np.shape. rewrite length_map. simpl. lia. }
  intros i row Hi.
  assert (Hlt : i < length (pd.rows df)).
  { apply nth_error_Some. rewrite Hi. discriminate. }
  assert (Hrowlen : length row = 785).
  { unfold pd.wf in Hwf. rewrite List.Forall_forall in Hwf.
    rewrite (Hwf row (nth_error_In _ _ Hi)). exact Hcols. }
  split.
  - unfold np.item. simpl np.shape. simpl np.data. unfold np.ravel_index.
    apply Nat.ltb_lt in Hlt. rewrite Hlt. cbv beta iota.
    change (np.size_of []) with 1. rewrite Nat.mul_1_r, Nat.add_0_r.
    rewrite nth_error_map, Hi. destruct row; [discriminate|reflexivity].
  - intros r c Hr Hc.
    unfold np.item, np.map. simpl np.shape. simpl np.data. unfold np.ravel_index.
    apply Nat.ltb_lt in Hlt, Hr, Hc. rewrite Hlt, Hr, Hc.
    change (0 <? 1) with true. cbv beta iota.
    change (np.size_of [28; 28; 1]) with 784.
    change (np.size_of [28; 1]) with 28.
    change (np.size_of [1]) with 1.
    change (np.size_of []) with 1.
    replace (i * 784 + (r * 28 + (c * 1 + (0 * 1 + 0)))) with (i * 784 + (r * 28 + c)) by lia.
    apply Nat.ltb_lt in Hr, Hc.
    rewrite nth_error_map.
    change (concat (List.map (skipn 1) (pd.rows df)))
      with (concat (List.map pd.pixels (pd.rows df))).
    rewrite (nth_error_concat_uniform _ 784 i (r * 28 + c) (pd.pixels row) Hblocks);
      [|rewrite nth_error_map, Hi; reflexivity|lia].
    rewrite nth_error_pixels. reflexivity.
Qed.

Lemma prepare_aligns_features_and_labels_witness :
  exists features labels,
    prep.prepare sample_df = Ok (features, labels) /\
    np.shape features = [2; 28; 28; 1] /\
    np.shape labels = [2].
Proof.
  destruct (prepare_aligns_features_and_labels prep.divide_255 sample_df)
    as (features & labels & Hp & Hf & Hl & _).
  - repeat constructor.
  - reflexivity.
  - exists features, labels. split; [exact Hp|]. split; [exact Hf | exact Hl].
Defined.

(** ** Subscripts *)

Lemma ravel_index_lt (sh idx : list nat) (off : nat) :
  np.ravel_index sh idx = Some off -> off < np.size_of sh.
Proof.
  revert idx off. induction sh as [|d sh IH]; intros [|i idx] off Hoff;
    simpl in Hoff; try discriminate.
  - injection Hoff as <-. simpl. lia.
  - destruct (i <? d) eqn:Hi; [|discriminate].
    destruct (np.ravel_index sh idx) as [off'|] eqn:Hrec; [|discriminate].
    injection Hoff as <-. apply Nat.ltb_lt in Hi. specialize (IH idx off' Hrec).
    change (np.size_of (d :: sh)) with (d * np.size_of sh).
    assert (S i * np.size_of sh <= d * np.size_of sh) by (apply Nat.mul_le_mono_r; lia).
    lia.
Qed.

(** Subscripts compose: [a[i][i1, ...]] is [a[i, i1, ...]], both failing
    together when an index is out of bounds or the rank is wrong. *)
Theorem item_of_sub {A : Type} (a : np.ndarray A) (i : nat) (idx : list nat) :
  np.item a (i :: idx) =
  match np.sub a i with
  | Some entry => np.item entry idx
  | None => None
  end.
Proof.
  unfold np.item, np.sub. destruct (np.shape a) as [|d sh]; [reflexivity|].
  simpl np.ravel_index. destruct (i <? d); [|reflexivity].
  simpl np.shape. simpl np.data.
  destruct (np.ravel_index sh idx) as [off|] eqn:Hoff; [|reflexivity].
  apply ravel_index_lt in Hoff.
  rewrite nth_error_firstn. apply Nat.ltb_lt in Hoff. rewrite Hoff.
  rewrite nth_error_skipn. reflexivity.
Qed.

(** ** Order of the normalised values *)

(** Normalisation in [float64] keeps pixel values apart and in order: a
    larger pixel gives a strictly larger quotient. *)
Theorem divide_255_strictly_increasing (x y : Z) :
  (0 <= x <= 255)%Z -> (0 <= y <= 255)%Z -> (x < y)%Z ->
  PrimFloat.ltb (prep.divide_255 x) (prep.divide_255 y) = true.
Proof.
  intros Hx Hy Hlt.
  assert (Hall : forallb (fun a =>
                   forallb (fun b =>
                     implb (a <? b)
                           (PrimFloat.ltb (prep.divide_255 (Z.of_nat a))
                                          (prep.divide_255 (Z.of_nat b))))
                     (seq 0 256))
                   (seq 0 256) = true)
    by (vm_compute; reflexivity).
  rewrite forallb_forall in Hall.
  specialize (Hall (Z.to_nat x)). rewrite forallb_forall in Hall.
  assert (Hinx : In (Z.to_nat x) (seq 0 256)) by (apply in_seq; lia).
  assert (Hiny : In (Z.to_nat y) (seq 0 256)) by (apply in_seq; lia).
  specialize (Hall Hinx (Z.to_nat y) Hiny).
  rewrite !Z2Nat.id in Hall by lia.
  replace (Z.to_nat x <? Z.to_nat y) with true in Hall
    by (symmetry; apply Nat.ltb_lt; lia).
  exact Hall.
Qed.

Lemma divide_255_strictly_increasing_witness :
  PrimFloat.ltb (prep.divide_255 127) (prep.divide_255 128) = true.
Proof. apply divide_255_strictly_increasing; lia. Defined.

(** ** Prediction on a batch *)

Lemma mapM_result_ok {A B : Type} (f : A -> result B) (g : A -> B) (l : list A) :
  (forall a, In a l -> f a = Ok (g a)) -> mapM f l = Ok (List.map g l).
Proof.
  induction l as [|a l IH]; intros Hf; simpl; [reflexivity|].
  rewrite (Hf a) by (left; reflexivity). cbn [mbind result_bind].
  rewrite IH by (intros a' Ha'; apply Hf; right; exact Ha').
  reflexivity.
Qed.

(** Sample [b] of a batch of 28 x 28 x 1 tensors. *)
Lemma sub_batch_sample (x : np.ndarray R) (batch b : nat) :
  np.shape x = [batch; 28; 28; 1] -> np.wf x -> b < batch ->
  np.sub x b = Some (np.mk [28; 28; 1] (firstn 784 (skipn (b * 784) (np.data x)))) /\
  np.wf (np.mk [28; 28; 1] (firstn 784 (skipn (b * 784) (np.data x)))).
Proof.
  intros Hsh Hwf Hb. split.
  - unfold np.sub. rewrite Hsh. apply Nat.ltb_lt in Hb. rewrite Hb. reflexivity.
  - unfold np.wf in *. rewrite Hsh in Hwf.
    change (np.size_of [batch; 28; 28; 1]) with (batch * 784) in Hwf.
    cbn [np.data np.shape]. change (np.size_of [28; 28; 1]) with 784.
    rewrite length_firstn, length_skipn, Hwf. nia.
Qed.

Lemma run_sample_notebook (m : Model) (rng : nat -> nat -> bool) (x : np.ndarray R)
    (batch b : nat) :
  layers m = layers (notebook02.model (weights m)) ->
  np.shape x = [batch; 28; 28; 1] -> np.wf x -> b < batch ->
  exists v,
    length v = 10 /\
    run_sample false rng m x b = Ok (np.mk [10] (softmax_vec v)).
Proof.
  intros Hlayers Hsh Hwf Hb.
  destruct (sub_batch_sample x batch b Hsh Hwf Hb) as [Hsub Hwfs].
  destruct (notebook_forward rng (weights m) (weights m) _ Hwfs eq_refl) as (v & Hv & Hfwd).
  exists v. split; [exact Hv|].
  unfold run_sample. rewrite Hsub, Hlayers. exact Hfwd.
Qed.

Lemma run_sample_scores (m : Model) (rng : nat -> nat -> bool) (x : np.ndarray R)
    (batch b : nat) :
  layers m = layers (notebook02.model (weights m)) ->
  np.shape x = [batch; 28; 28; 1] -> np.wf x -> b < batch ->
  run_sample false rng m x b = Ok (np.mk [10] (inference.sample_scores m rng x b)) /\
  length (inference.sample_scores m rng x b) = 10 /\
  Forall (fun p => (0 < p)%R) (inference.sample_scores m rng x b) /\
  rsum (inference.sample_scores m rng x b) = 1%R.
Proof.
  intros Hlayers Hsh Hwf Hb.
  destruct (run_sample_notebook m rng x batch b Hlayers Hsh Hwf Hb) as (v & Hv & Hrun).
  assert (Hne : v <> []) by (intros ->; discriminate).
  unfold inference.sample_scores. rewrite Hrun. cbn [np.data].
  split; [reflexivity|].
  split; [unfold softmax_vec; rewrite !length_map; exact Hv|].
  split; [apply softmax_scores_positive, Hne | apply softmax_sums_to_one, Hne].
Qed.

Lemma predict_batch (m : Model) (rng : nat -> nat -> bool) (x : np.ndarray R)
    (batch : nat) :
  layers m = layers (notebook02.model (weights m)) ->
  np.shape x = [batch; 28; 28; 1] -> np.wf x -> 1 <= batch ->
  predict m rng x =
  Ok (np.mk [batch; 10] (concat (List.map (inference.sample_scores m rng x) (seq 0 batch)))).
Proof.
  intros Hlayers Hsh Hwf Hbatch. unfold predict. rewrite Hsh.
  rewrite bool_decide_eq_true_2
    by (right; unfold input_shape_of; rewrite Hlayers; reflexivity).
  rewrite (mapM_result_ok _ (fun b => np.mk [10] (inference.sample_scores m rng x b))).
  - cbn [mbind result_bind mret result_ret]. unfold stack.
    rewrite length_map, length_seq, List.map_map. cbn [np.data].
    destruct batch as [|batch']; [lia|]. reflexivity.
  - intros b Hin. apply in_seq in Hin.
    apply (run_sample_scores m rng x batch b Hlayers Hsh Hwf). lia.
Qed.

Lemma sub_predicted_row (m : Model) (rng : nat -> nat -> bool) (x : np.ndarray R)
    (batch b : nat) :
  layers m = layers (notebook02.model (weights m)) ->
  np.shape x = [batch; 28; 28; 1] -> np.wf x -> b < batch ->
  np.sub (np.mk [batch; 10]
            (concat (List.map (inference.sample_scores m rng x) (seq 0 batch)))) b
  = Some (np.mk [10] (inference.sample_scores m rng x b)).
Proof.
  intros Hlayers Hsh Hwf Hb. unfold np.sub. cbn [np.shape np.data].
  pose proof Hb as Hb'. apply Nat.ltb_lt in Hb'. rewrite Hb'.
  change (np.size_of [10]) with 10.
  rewrite (block_of_concat _ 10 b (inference.sample_scores m rng x b)); [reflexivity| |].
  - apply List.Forall_map, List.Forall_forall. intros a Ha. apply in_seq in Ha.
    apply (run_sample_scores m rng x batch a Hlayers Hsh Hwf). lia.
  - rewrite nth_error_map, nth_error_seq. rewrite Hb'. reflexivity.
Qed.



(** ** [argmax] *)

(** Invariant of the scan: [pre] is what has been read, [b] its first
    largest element and [bi] the position of [b]. *)
Lemma argmax_from_spec (l pre : list R) (bi : nat) (b : R) :
  nth_error pre bi = Some b ->
  (forall u, In u pre -> (u <= b)%R) ->
  (forall j u, j < bi -> nth_error pre j = Some u -> (u < b)%R) ->
  exists v,
    nth_error (pre ++ l) (numpy.argmax_from bi b (length pre) l) = Some v /\
    (forall u, In u (pre ++ l) -> (u <= v)%R) /\
    (forall j u, j < numpy.argmax_from bi b (length pre) l ->
       nth_error (pre ++ l) j = Some u -> (u < v)%R).
Proof.
  revert pre bi b. induction l as [|t l IH]; intros pre bi b Hb Hmax Hfirst.
  - simpl. rewrite app_nil_r. exists b. auto.
  - assert (Hbi : bi < length pre) by (apply nth_error_Some; rewrite Hb; discriminate).
    simpl. replace (pre ++ t :: l) with ((pre ++ [t]) ++ l)
      by (rewrite <- app_assoc; reflexivity).
    replace (S (length pre)) with (length (pre ++ [t]))
      by (rewrite length_app; simpl; lia).
    destruct (Rlt_dec b t) as [Hlt | Hge].
    + apply IH.
      * rewrite nth_error_app2 by lia. rewrite Nat.sub_diag. reflexivity.
      * intros u Hu. apply in_app_or in Hu as [Hu | [<- | []]]; [|lra].
        specialize (Hmax u Hu). lra.
      * intros j u Hj Hu. rewrite nth_error_app1 in Hu by exact Hj.
        apply nth_error_In in Hu. specialize (Hmax u Hu). lra.
    + apply IH.
      * rewrite nth_error_app1 by exact Hbi. exact Hb.
      * intros u Hu. apply in_app_or in Hu as [Hu | [<- | []]]; [auto|lra].
      * intros j u Hj Hu. rewrite nth_error_app1 in Hu by lia. eauto.
Qed.

Lemma argmax_spec (a : np.ndarray R) :
  np.data a <> [] ->
  exists k v,
    numpy.argmax a = Ok k /\
    nth_error (np.data a) k = Some v /\
    (forall u, In u (np.data a) -> (u <= v)%R) /\
    (forall j u, j < k -> nth_error (np.data a) j = Some u -> (u < v)%R).
Proof.
  unfold numpy.argmax. destruct (np.data a) as [|t l]; [congruence|]. intros _.
  destruct (argmax_from_spec l [t] 0 t) as (v & Hv & Hmax & Hfirst).
  - reflexivity.
  - intros u [<- | []]. lra.
  - intros j u Hj. lia.
  - exists (numpy.argmax_from 0 t 1 l), v. auto.
Qed.

(** [argmax] raises [ValueError] on an array without elements; otherwise it
    returns a position inside the array whose element no other exceeds and
    that every earlier element is strictly below: the first maximum. *)
Theorem argmax_first_maximum (a : np.ndarray R) :
  match np.data a with
  | [] => numpy.argmax a = Raise ValueError
  | _ :: _ =>
      exists k v,
        numpy.argmax a = Ok k /\
        k < length (np.data a) /\
        nth_error (np.data a) k = Some v /\
        (forall u, In u (np.data a) -> (u <= v)%R) /\
        (forall j u, j < k -> nth_error (np.data a) j = Some u -> (u < v)%R)
  end.
Proof.
  destruct (np.data a) as [|t l] eqn:Hdata.
  - unfold numpy.argmax. rewrite Hdata. reflexivity.
  - destruct (argmax_spec a) as (k & v & Hk & Hv & Hmax & Hfirst);
      [rewrite Hdata; discriminate|].
    rewrite Hdata in Hv, Hmax, Hfirst.
    exists k, v. split; [exact Hk|]. split; [|auto].
    apply nth_error_Some. rewrite Hv. discriminate.
Qed.

(** ** [randint] *)

(** [randint(low, high)] raises [ValueError] on an empty range and
    otherwise returns a value from [low] up to, but not including, [high],
    each of which some draw gives.  The example cell calls it with 0 and
    9999: it never selects row 9999, the last of 10000 test rows. *)
Theorem randint_range (low high draw : N) :
  (if (low <? high)%N
   then exists s, numpy.randint low high draw = Ok s /\ (low <= s < high)%N
   else numpy.randint low high draw = Raise ValueError) /\
  (forall s, (low <= s < high)%N -> exists d, numpy.randint low high d = Ok s) /\
  numpy.randint 0 9999 draw <> Ok 9999%N.
Proof.
  unfold numpy.randint. split; [|split].
  - destruct (low <? high)%N eqn:Hlh; [|reflexivity].
    apply N.ltb_lt in Hlh. eexists. split; [reflexivity|].
    pose proof (N.mod_upper_bound draw (high - low)) as Hr.
    generalize dependent (draw mod (high - low))%N. intros r Hr. lia.
  - intros s Hs. exists (s - low)%N.
    replace (low <? high)%N with true by (symmetry; apply N.ltb_lt; lia).
    f_equal. rewrite N.mod_small by lia. lia.
  - change (0 <? 9999)%N with true. intros Heq. injection Heq as Heq.
    pose proof (N.mod_upper_bound draw (9999 - 0)) as Hr.
    generalize dependent (draw mod (9999 - 0))%N. intros r Heq Hr. lia.
Qed.

(** ** Locality of the feature extractor *)

Lemma flat_map_ext_in {A B : Type} (f g : A -> list B) (l : list A) :
  (forall a, In a l -> f a = g a) -> flat_map f l = flat_map g l.
Proof.
  induction l as [|a l IH]; intros Hfg; simpl; [reflexivity|].
  rewrite (Hfg a) by (left; reflexivity).
  rewrite IH by (intros a' Ha'; apply Hfg; right; exact Ha').
  reflexivity.
Qed.

Lemma conv2d_ok {T : Type} `{Scalar T} (filters kh kw : nat) (w : LayerWeights T)
    (x y : np.ndarray T) (h wd c : nat) :
  np.shape x = [h; wd; c] ->
  conv2d filters kh kw w x = Ok y ->
  y = np.tabulate3 (h - kh + 1) (wd - kw + 1) filters (fun i j f =>
        s_add (sum_of (conv_terms kh kw w x c i j f)) (bias w f)).
Proof.
  intros Hsh. unfold conv2d. rewrite Hsh.
  destruct ((1 <=? kh) && (kh <=? h) && (1 <=? kw) && (kw <=? wd)); [|discriminate].
  intros Hy. injection Hy as <-. reflexivity.
Qed.

(** An output cell of [Conv2D] depends on the input only through the
    window under the kernel: two inputs of one shape that agree on the
    [kh] x [kw] window at [(i, j)] give the same value at [(i, j)] for
    every filter, whatever they hold elsewhere. *)
Theorem conv2d_is_local {T : Type} `{Scalar T} (filters kh kw : nat) (w : LayerWeights T)
    (x x' y y' : np.ndarray T) (h wd c i j f : nat) :
  np.shape x = [h; wd; c] ->
  np.shape x' = [h; wd; c] ->
  conv2d filters kh kw w x = Ok y ->
  conv2d filters kh kw w x' = Ok y' ->
  i < h - kh + 1 -> j < wd - kw + 1 -> f < filters ->
  (forall di dj ch, di < kh -> dj < kw -> ch < c ->
     np.item x [i + di; j + dj; ch] = np.item x' [i + di; j + dj; ch]) ->
  np.item y [i; j; f] = np.item y' [i; j; f] /\ is_Some (np.item y [i; j; f]).
Proof.
  intros Hsh Hsh' Hy Hy' Hi Hj Hf Hagree.
  rewrite (conv2d_ok filters kh kw w x y h wd c Hsh Hy).
  rewrite (conv2d_ok filters kh kw w x' y' h wd c Hsh' Hy').
  rewrite !item_tabulate3 by assumption.
  split; [|eexists; reflexivity].
  do 3 f_equal. unfold conv_terms.
  apply flat_map_ext_in. intros di Hdi. apply in_seq in Hdi.
  apply flat_map_ext_in. intros dj Hdj. apply in_seq in Hdj.
  apply map_ext_in. intros ch Hch. apply in_seq in Hch.
  unfold at3. rewrite Hagree by lia. reflexivity.
Qed.

Lemma conv2d_is_local_witness :
  np.item (np.mk [1; 2; 1] [112; 116]%Z) [0; 0; 0]
  = np.item (np.mk [1; 2; 1] [112; 124]%Z) [0; 0; 0].
Proof.
  refine (proj1 (conv2d_is_local 1 2 2 ones_kernel grid_a grid_b
                   (np.mk [1; 2; 1] [112; 116]%Z) (np.mk [1; 2; 1] [112; 124]%Z)
                   2 3 1 0 0 0 _ _ _ _ _ _ _ _));
    try reflexivity; try (simpl; lia).
  intros [|[|di]] [|[|dj]] [|ch] Hdi Hdj Hch; try lia; reflexivity.
Defined.

(** ** The prediction of the example cell *)

Lemma predict_cell_ok (m : Model) (rng : nat -> nat -> bool) (features : np.ndarray R) :
  layers m = layers (notebook02.model (weights m)) ->
  length (np.data features) = 784 ->
  exists scores,
    notebook02.predict_cell m rng features = Ok scores /\
    forward_from 0 false rng (weights m) (layers m)
      (np.mk [28; 28; 1] (np.data features)) = Ok scores /\
    np.shape scores = [10] /\
    length (np.data scores) = 10 /\
    Forall (fun p => (0 < p)%R) (np.data scores) /\
    rsum (np.data scores) = 1%R.
Proof.
  intros Hlayers Hlen.
  set (x := np.mk [1; 28; 28; 1] (np.data features)).
  assert (Hsh : np.shape x = [1; 28; 28; 1]) by reflexivity.
  assert (Hwf : np.wf x) by exact Hlen.
  assert (H0 : 0 < 1) by lia.
  destruct (run_sample_scores m rng x 1 0 Hlayers Hsh Hwf H0) as (Hrun & Hl & Hpos & Hsum).
  exists (np.mk [10] (inference.sample_scores m rng x 0)).
  split; [|split; [|auto]].
  - unfold notebook02.predict_cell, np.reshape.
    change (np.size_of [1; 28; 28; 1]) with 784. rewrite Hlen, Nat.eqb_refl.
    cbn [mbind result_bind]. fold x.
    rewrite (predict_batch m rng x 1 Hlayers Hsh Hwf (le_n 1)).
    cbn [mbind result_bind].
    rewrite (sub_predicted_row m rng x 1 0 Hlayers Hsh Hwf H0). reflexivity.
  - unfold run_sample in Hrun.
    destruct (sub_batch_sample x 1 0 Hsh Hwf H0) as [Hsub _].
    rewrite Hsub in Hrun.
    change (firstn 784 (skipn (0 * 784) (np.data x)))
      with (firstn 784 (np.data features)) in Hrun.
    rewrite <- Hlen, firstn_all in Hrun. exact Hrun.
Qed.

(** The prediction cell takes any array of 784 elements, whatever its
    shape: it returns the 10 scores, summing to 1, that the stack gives the
    elements read as one 28 x 28 x 1 tensor.  On any other number of
    elements its reshape raises [ValueError]. *)
Theorem predict_cell_accepts_784_elements (m : Model) (rng : nat -> nat -> bool)
    (features : np.ndarray R) :
  layers m = layers (notebook02.model (weights m)) ->
  if length (np.data features) =? 784
  then exists scores,
         notebook02.predict_cell m rng features = Ok scores /\
         forward_from 0 false rng (weights m) (layers m)
           (np.mk [28; 28; 1] (np.data features)) = Ok scores /\
         np.shape scores = [10] /\
         rsum (np.data scores) = 1%R
  else notebook02.predict_cell m rng features = Raise ValueError.
Proof.
  intros Hlayers. destruct (length (np.data features) =? 784) eqn:Hlen.
  - apply Nat.eqb_eq in Hlen.
    destruct (predict_cell_ok m rng features Hlayers Hlen)
      as (scores & Hp & Hf & Hsh & _ & _ & Hsum).
    exists scores. auto.
  - unfold notebook02.predict_cell, np.reshape.
    change (np.size_of [1; 28; 28; 1]) with 784.
    rewrite Nat.eqb_sym, Hlen. reflexivity.
Qed.

Lemma predict_cell_accepts_784_elements_witness :
  exists scores,
    notebook02.predict_cell trained_zero (fun _ _ => false)
      (np.mk [28; 28] (repeat 0%R 784)) = Ok scores /\
    np.shape scores = [10].
Proof.
  pose proof (predict_cell_accepts_784_elements trained_zero (fun _ _ => false)
                (np.mk [28; 28] (repeat 0%R 784)) eq_refl) as H.
  destruct H as (scores & Hp & _ & Hsh & _).
  exists scores. split; [exact Hp | exact Hsh].
Defined.

(** ** The example cell *)

Lemma randint_cell (draw : N) :
  numpy.randint 0 9999 draw = Ok (draw mod 9999)%N.
Proof. reflexivity. Qed.

(** When the row drawn exists, the example cell returns that row's label
    and the class of that row's features: the position of the largest of
    the scores the stack gives the row outside training, a class below 10.
    The two reshapes on the way leave the features as they were. *)
Theorem example_cell_returns (m : Model) (rng : nat -> nat -> bool) (draw : N)
    (test_features : np.ndarray R) (test_labels : np.ndarray Z) (n : nat) :
  layers m = layers (notebook02.model (weights m)) ->
  np.shape test_features = [n; 28; 28; 1] -> np.wf test_features ->
  np.shape test_labels = [n] -> np.wf test_labels ->
  N.to_nat (draw mod 9999) < n ->
  exists label predicted sample scores,
    cell20.example_cell m rng draw test_features test_labels = cell20.Returned (label, predicted) /\
    np.item test_labels [N.to_nat (draw mod 9999)] = Some label /\
    np.sub test_features (N.to_nat (draw mod 9999)) = Some sample /\
    forward_from 0 false rng (weights m) (layers m) sample = Ok scores /\
    numpy.argmax scores = Ok predicted /\
    predicted < 10.
Proof.
  intros Hlayers Hshf Hwff Hshl Hwfl Hsel.
  set (sel := N.to_nat (draw mod 9999)) in *.
  destruct (sub_batch_sample test_features n sel Hshf Hwff Hsel) as [Hsub Hwfs].
  set (d := firstn 784 (skipn (sel * 784) (np.data test_features))) in *.
  assert (Hd : length d = 784) by exact Hwfs.
  assert (Hlabel : exists label, np.item test_labels [sel] = Some label).
  { unfold np.item. rewrite Hshl. simpl np.ravel_index.
    pose proof Hsel as Hsel'. apply Nat.ltb_lt in Hsel'. rewrite Hsel'.
    destruct (nth_error (np.data test_labels) (sel * np.size_of [] + 0)) as [label|] eqn:Hl;
      [exists label; exact Hl|].
    apply nth_error_None in Hl. unfold np.wf in Hwfl. rewrite Hshl in Hwfl.
    simpl in Hwfl, Hl. lia. }
  destruct Hlabel as [label Hlabel].
  destruct (predict_cell_ok m rng (np.mk [28; 28] d) Hlayers Hd)
    as (scores & Hp & Hf & _ & Hlen & _ & _).
  destruct (argmax_spec scores) as (k & v & Hk & Hv & _ & _).
  { intros Hnil. rewrite Hnil in Hlen. discriminate. }
  exists label, k, (np.mk [28; 28; 1] d), scores.
  split.
  { unfold cell20.example_cell. rewrite randint_cell.
    cbn [mbind cell20.outcome_bind cell20.of_result]. fold sel.
    rewrite Hsub. cbn [mbind cell20.outcome_bind cell20.of_subscript].
    unfold np.reshape at 1. cbn [np.data]. change (np.size_of [28; 28]) with 784.
    rewrite Hd, Nat.eqb_refl. cbn [mbind cell20.outcome_bind cell20.of_result].
    rewrite Hlabel. cbn [mbind cell20.outcome_bind cell20.of_subscript].
    rewrite Hp. cbn [mbind cell20.outcome_bind cell20.of_result].
    rewrite Hk. reflexivity. }
  split; [exact Hlabel|]. split; [exact Hsub|]. split; [exact Hf|].
  split; [exact Hk|].
  rewrite <- Hlen. apply nth_error_Some. rewrite Hv. discriminate.
Qed.

Lemma example_cell_returns_witness :
  exists predicted,
    cell20.example_cell trained_zero (fun _ _ => false) 1 two_images two_labels
    = cell20.Returned (2%Z, predicted) /\ predicted < 10.
Proof.
  destruct (example_cell_returns trained_zero (fun _ _ => false) 1 two_images two_labels 2)
    as (label & predicted & sample & scores & Hcell & Hlabel & _ & _ & _ & Hlt).
  - reflexivity.
  - reflexivity.
  - reflexivity.
  - reflexivity.
  - reflexivity.
  - vm_compute. lia.
  - exists predicted. split; [|exact Hlt].
    assert (Hl : label = 2%Z) by (vm_compute in Hlabel; congruence).
    rewrite <- Hl. exact Hcell.
Defined.

(** When the test set has no row at the position drawn, the subscript of
    the example cell raises [IndexError]: the cell ends there, before any
    reshape or prediction. *)
Theorem example_cell_index_error (m : Model) (rng : nat -> nat -> bool) (draw : N)
    (test_features : np.ndarray R) (test_labels : np.ndarray Z) (n : nat)
    (sh : list nat) :
  np.shape test_features = n :: sh ->
  n <= N.to_nat (draw mod 9999) ->
  cell20.example_cell m rng draw test_features test_labels = cell20.RaisedIndexError.
Proof.
  intros Hsh Hsel. unfold cell20.example_cell. rewrite randint_cell.
  cbn [mbind cell20.outcome_bind cell20.of_result].
  unfold np.sub. rewrite Hsh.
  replace (N.to_nat (draw mod 9999) <? n) with false
    by (symmetry; apply Nat.ltb_ge; exact Hsel).
  reflexivity.
Qed.

Lemma example_cell_index_error_witness :
  cell20.example_cell trained_zero (fun _ _ => false) 5 two_images two_labels
  = cell20.RaisedIndexError.
Proof.
  apply (example_cell_index_error _ _ _ _ _ 2 [28; 28; 1]); [reflexivity|].
  vm_compute. lia.
Defined.
